(** * PjRt client bootstrap and plugin registry

    A shallow embedding of [torch_xla/csrc/runtime/pjrt_registry.cpp]:
    the process-wide plugin table ([pjrt_plugins_], [GetPjRtPlugin],
    [RegisterPjRtPlugin]), the GPU allocator configuration
    ([GetGpuAllocatorConfig]) and the dispatch of [InitializePjRt].

    The process environment is a finite map from variable names to their
    text.  Calls that leave the file (coordinator, plugin loader, client
    factories) are answered by a record of collaborators and are recorded,
    with their arguments, in a trace; a run ends with a value, with a
    returned [absl::Status], or in a failed [ABSL_CHECK].  The lines
    written through [TF_VLOG] are left out: they read the environment and
    change nothing. *)

From Stdlib Require Import ZArith Floats Ascii String List.
From stdpp Require Import gmap strings list.

Open Scope string_scope.
Open Scope Z_scope.

(** ** absl::Status and absl::StatusOr *)

Inductive StatusCode :=
  | kCancelled | kUnknown | kInvalidArgument | kDeadlineExceeded | kNotFound
  | kAlreadyExists | kPermissionDenied | kResourceExhausted
  | kFailedPrecondition | kAborted | kOutOfRange | kUnimplemented
  | kInternal | kUnavailable | kDataLoss | kUnauthenticated.

(** A status that is not OK. *)
Record Status := { code : StatusCode; message : string }.

Definition InvalidArgumentError (msg : string) : Status :=
  {| code := kInvalidArgument; message := msg |}.

Inductive StatusOr (A : Type) :=
  | IsOk (a : A)
  | NotOk (s : Status).
Arguments IsOk {A} a.
Arguments NotOk {A} s.

(** [std::unique_ptr<T>] and [std::shared_ptr<T>] as far as this file looks
    at them: either null or an object. *)
Definition unique_ptr (A : Type) : Type := option A.
Definition nullptr {A : Type} : unique_ptr A := None.

(** ** The process environment and the names read from it *)

Abbreviation Env := (gmap string string).

(** The names declared in env_vars.h and xla_coordinator.h.  The header
    files are outside this development, so the names are taken as given. *)
Record env_vars := {
  kEnvPjRtDevice : string;
  kEnvPjrtDynamicPlugins : string;
  kEnvPjRtLocalRank : string;
  kEnvPjRtLocalProcessCount : string;
  kEnvPjrtAsyncCpuClient : string;
  kEnvNumCpu : string;
  kEnvTpuLibraryPath : string;
  kEnvInferredTpuLibraryPath : string;
  kEnvPjrtAsyncGpuClient : string;
  kEnvPjrtAllocatorCudaAsync : string;
  kEnvPjrtAllocatorPreallocate : string;
  kEnvPjrtAllocatorFraction : string;
  kEnvXpuLibraryPath : string;
  kEnvNeuronLibraryPath : string;
  kDefaultCoordinatorPort : string
}.

(** How the text of a variable that is set is read as a number or a flag.
    [EnvToInt] gives the value as the [int] the caller stores it in. *)
Record Conversions := {
  EnvToInt : string -> Z;
  EnvToBool : string -> bool;
  EnvToDouble : string -> float
}.

Module sys_util.

(** Modelled from the spec: sys_util's GetEnvString (sys_util.h is not
    part of the sources at hand).  The Configuration Source resolves a
    named value from the process environment, with a caller-supplied
    default used when the name is absent. *)
Definition GetEnvString (environ : Env) (name defval : string) : string :=
  match environ !! name with
  | Some v => v
  | None => defval
  end.

(** Modelled from the spec: sys_util's GetEnvInt; an integer lookup by
    key with a caller-supplied default, which never fails. *)
Definition GetEnvInt (C : Conversions) (environ : Env) (name : string)
    (defval : Z) : Z :=
  match environ !! name with
  | Some v => EnvToInt C v
  | None => defval
  end.

(** Modelled from the spec: sys_util's GetEnvBool; a boolean lookup by
    key with a caller-supplied default. *)
Definition GetEnvBool (C : Conversions) (environ : Env) (name : string)
    (defval : bool) : bool :=
  match environ !! name with
  | Some v => EnvToBool C v
  | None => defval
  end.

(** Modelled from the spec: sys_util's GetEnvDouble; a floating-point
    lookup by key with a caller-supplied default. *)
Definition GetEnvDouble (C : Conversions) (environ : Env) (name : string)
    (defval : float) : float :=
  match environ !! name with
  | Some v => EnvToDouble C v
  | None => defval
  end.

End sys_util.

(** ** absl string helpers *)

Definition ascii_tolower (c : ascii) : ascii :=
  let n := nat_of_ascii c in
  if ((65 <=? n) && (n <=? 90))%nat then ascii_of_nat (n + 32) else c.

Definition ascii_toupper (c : ascii) : ascii :=
  let n := nat_of_ascii c in
  if ((97 <=? n) && (n <=? 122))%nat then ascii_of_nat (n - 32) else c.

Fixpoint AsciiStrToLower (s : string) : string :=
  match s with
  | EmptyString => EmptyString
  | String c r => String (ascii_tolower c) (AsciiStrToLower r)
  end.

Fixpoint AsciiStrToUpper (s : string) : string :=
  match s with
  | EmptyString => EmptyString
  | String c r => String (ascii_toupper c) (AsciiStrToUpper r)
  end.

Definition StrCat (parts : list string) : string :=
  fold_right String.append EmptyString parts.

(** ** Objects owned by the runtime

    Clients, coordinators and plugin API tables are opaque to this file;
    each is identified by a handle. *)

Definition PjRtClient := N.
Definition XlaCoordinator := N.
Definition DistributedRuntimeClient := N.
Definition PJRT_Api := N.

(** [xla::PjRtValueType]: a tagged union of option values. *)
Inductive PjRtValueType :=
  | ValString (s : string)
  | ValBool (b : bool)
  | ValInt (n : Z)
  | ValFloat (x : float).

(** The view returned by [xla::GetDistributedKeyValueStore]: the
    distributed client it talks to and the prefix put before every key. *)
Record KeyValueStore := {
  kv_client : DistributedRuntimeClient;
  key_prefix : string
}.

Definition GetDistributedKeyValueStore (client : DistributedRuntimeClient)
    (prefix : string) : KeyValueStore :=
  {| kv_client := client; key_prefix := prefix |}.

(** [xla::GpuAllocatorConfig], the fields this file assigns. *)
Inductive AllocatorKind := kDefault | kPlatform | kBFC | kCudaAsync.

Record GpuAllocatorConfig := {
  kind : AllocatorKind;
  memory_fraction : float;
  preallocate : bool
}.

(** [xla::GpuClientOptions], the fields this file assigns. *)
Record GpuClientOptions := {
  allocator_config : GpuAllocatorConfig;
  node_id : Z;
  num_nodes : Z;
  allowed_devices : option (gset Z);
  platform_name : string;
  should_stage_host_to_device_transfers : bool;
  kv_store : unique_ptr KeyValueStore
}.

(** ** Plugins and the process-wide table *)

(** The [PjRtPlugin] interface.  Its methods run when they are called, in
    the environment of that moment. *)
Record PjRtPlugin := {
  library_path : Env -> string;
  client_create_options : Env -> gmap string PjRtValueType;
  requires_xla_coordinator : Env -> bool
}.

(** Placeholder plugin for testing only. *)
Definition LibraryPlugin : PjRtPlugin :=
  {| library_path := fun environ =>
       sys_util.GetEnvString environ "PJRT_LIBRARY_PATH" EmptyString;
     client_create_options := fun _ => ∅;
     requires_xla_coordinator := fun _ => false |}.

Abbreviation Registry := (gmap string PjRtPlugin).

(** The table as it is when the process starts. *)
Definition pjrt_plugins_ : Registry := {[ "LIBRARY" := LibraryPlugin ]}.

Definition GetPjRtPlugin (plugins : Registry) (device_type : string)
    : unique_ptr PjRtPlugin :=
  match plugins !! device_type with
  | Some plugin => Some plugin
  | None => nullptr
  end.

Definition RegisterPjRtPlugin (name : string) (plugin : PjRtPlugin)
    (plugins : Registry) : Registry :=
  <[name := plugin]> plugins.

(** ** Collaborators outside this file *)

(** What the calls that leave the file answer.  [XLA_ERROR_WITH_LOCATION]
    is the macro of status.h applied to a status built here;
    [XLA_PROPAGATE] is what XLA_ASSIGN_OR_RETURN and XLA_RETURN_IF_ERROR
    hand to the caller for a status that is not OK.
    [XlaCoordinator_Create] gives a coordinator object when it succeeds
    (the source calls [GetClient] on it at once); the client factories
    give a [unique_ptr], which the source checks before it returns. *)
Record Externals := {
  XLA_ERROR_WITH_LOCATION : Status -> Status;
  XLA_PROPAGATE : Status -> Status;
  GpuAllocatorConfig_default : GpuAllocatorConfig;
  XlaCoordinator_Create :
    Z -> Z -> string -> string -> StatusOr XlaCoordinator;
  XlaCoordinator_GetClient : XlaCoordinator -> DistributedRuntimeClient;
  LoadPjrtPlugin : string -> string -> StatusOr PJRT_Api;
  InitializePjrtPlugin : string -> StatusOr unit;
  GetCApiClient :
    string -> gmap string PjRtValueType -> unique_ptr KeyValueStore ->
    StatusOr (unique_ptr PjRtClient);
  GetPjRtCpuClient : bool -> Z -> StatusOr (unique_ptr PjRtClient);
  GetStreamExecutorGpuClient :
    GpuClientOptions -> StatusOr (unique_ptr PjRtClient)
}.

(** A call that leaves the file, with the arguments it was given. *)
Inductive Call :=
  | TORCH_WARN (msg : string)
  | absl_InitializeLog
  | Call_XlaCoordinator_Create (global_rank world_size : Z)
      (master_addr port : string)
  | Call_LoadPjrtPlugin (name path : string)
  | Call_InitializePjrtPlugin (name : string)
  | Call_GetCApiClient (name : string)
      (create_options : gmap string PjRtValueType)
      (kv : unique_ptr KeyValueStore)
  | Call_GetPjRtCpuClient (async : bool) (cpu_device_count : Z)
  | Call_GetStreamExecutorGpuClient (options : GpuClientOptions)
  | Call_RegisterProfilerForPlugin (c_api : PJRT_Api).

(** ** Runs: a trace of calls and how the function ended *)

Inductive Outcome (A : Type) :=
  | Returned (a : A)
  | Failed (s : Status)
  | CheckFailed.
Arguments Returned {A} a.
Arguments Failed {A} s.
Arguments CheckFailed {A}.

Definition Run (A : Type) : Type := (list Call * Outcome A)%type.

#[global] Instance Run_ret : MRet Run := fun A a => ([], Returned a).

#[global] Instance Run_bind : MBind Run := fun A B k m =>
  match m.2 with
  | Returned a => ((m.1 ++ (k a).1)%list, (k a).2)
  | Failed s => (m.1, Failed s)
  | CheckFailed => (m.1, CheckFailed)
  end.

Definition emit (c : Call) : Run unit := ([c], Returned tt).

(** An early [return] of a status. *)
Definition return_error {A : Type} (s : Status) : Run A := ([], Failed s).

(** [ABSL_CHECK(p)]: go on with the object when [p] is not null. *)
Definition ABSL_CHECK {A : Type} (p : unique_ptr A) : Run A :=
  match p with
  | Some a => ([], Returned a)
  | None => ([], CheckFailed)
  end.

Definition trace {A : Type} (r : Run A) : list Call := r.1.
Definition outcome {A : Type} (r : Run A) : Outcome A := r.2.

(** The four numbers of the distributed topology. *)
Record Topology := {
  local_process_rank : Z;
  global_process_rank : Z;
  local_world_size : Z;
  global_world_size : Z
}.

Definition empty (s : string) : bool :=
  match s with
  | EmptyString => true
  | String _ _ => false
  end.

Section Runtime.

Variable K : env_vars.
Variable C : Conversions.
Variable W : Externals.

(** [XLA_ASSIGN_OR_RETURN(lhs, call)]: make the call; go on with its
    value, or return its status. *)
Definition XLA_ASSIGN_OR_RETURN {A : Type} (c : Call) (r : StatusOr A)
    : Run A :=
  match r with
  | IsOk a => ([c], Returned a)
  | NotOk s => ([c], Failed (XLA_PROPAGATE W s))
  end.

(** [XLA_RETURN_IF_ERROR(call)]: the same, the value is dropped. *)
Definition XLA_RETURN_IF_ERROR {A : Type} (c : Call) (r : StatusOr A)
    : Run unit :=
  match r with
  | IsOk _ => ([c], Returned tt)
  | NotOk s => ([c], Failed (XLA_PROPAGATE W s))
  end.

Definition GetGpuAllocatorConfig (environ : Env) : GpuAllocatorConfig :=
  let allocator_config := GpuAllocatorConfig_default W in
  if empty (sys_util.GetEnvString environ
              (kEnvPjrtAllocatorCudaAsync K) EmptyString)
     && empty (sys_util.GetEnvString environ
                 (kEnvPjrtAllocatorPreallocate K) EmptyString)
     && empty (sys_util.GetEnvString environ
                 (kEnvPjrtAllocatorFraction K) EmptyString)
  then allocator_config
  else
    let kind' :=
      if sys_util.GetEnvBool C environ (kEnvPjrtAllocatorCudaAsync K) false
      then kCudaAsync
      else kind allocator_config in
    {| kind := kind';
       preallocate :=
         sys_util.GetEnvBool C environ (kEnvPjrtAllocatorPreallocate K) true;
       memory_fraction :=
         sys_util.GetEnvDouble C environ (kEnvPjrtAllocatorFraction K)
           0.75%float |}.

(** The ranks and sizes read on the plugin path (the block under
    [requires_xla_coordinator]). *)
Definition plugin_topology (environ : Env) : Topology :=
  let local_process_rank :=
    sys_util.GetEnvInt C environ (kEnvPjRtLocalRank K)
      (sys_util.GetEnvInt C environ "LOCAL_RANK" 0) in
  let global_process_rank :=
    sys_util.GetEnvInt C environ "RANK" local_process_rank in
  let local_world_size :=
    sys_util.GetEnvInt C environ (kEnvPjRtLocalProcessCount K)
      (sys_util.GetEnvInt C environ "LOCAL_WORLD_SIZE" 1) in
  let global_world_size :=
    sys_util.GetEnvInt C environ "WORLD_SIZE" local_world_size in
  {| local_process_rank := local_process_rank;
     global_process_rank := global_process_rank;
     local_world_size := local_world_size;
     global_world_size := global_world_size |}.

(** The ranks and sizes read on the CUDA path. *)
Definition cuda_topology (environ : Env) : Topology :=
  let local_process_rank :=
    sys_util.GetEnvInt C environ (kEnvPjRtLocalRank K) 0 in
  let global_process_rank :=
    sys_util.GetEnvInt C environ "RANK" local_process_rank in
  let local_world_size :=
    sys_util.GetEnvInt C environ "LOCAL_WORLD_SIZE" 1 in
  let global_world_size :=
    sys_util.GetEnvInt C environ "WORLD_SIZE" local_world_size in
  {| local_process_rank := local_process_rank;
     global_process_rank := global_process_rank;
     local_world_size := local_world_size;
     global_world_size := global_world_size |}.

(** Creating the coordinator and the key-value store over it; both
    paths that coordinate do this, each with its own prefix. *)
Definition create_coordinator (environ : Env) (t : Topology)
    (prefix : string) : Run (XlaCoordinator * KeyValueStore) :=
  let master_addr :=
    sys_util.GetEnvString environ "MASTER_ADDR" "localhost" in
  let port :=
    sys_util.GetEnvString environ "XLA_COORDINATOR_PORT"
      (kDefaultCoordinatorPort K) in
  coordinator ← XLA_ASSIGN_OR_RETURN
    (Call_XlaCoordinator_Create (global_process_rank t)
       (global_world_size t) master_addr port)
    (XlaCoordinator_Create W (global_process_rank t)
       (global_world_size t) master_addr port);
  let distributed_client := XlaCoordinator_GetClient W coordinator in
  mret (coordinator,
        GetDistributedKeyValueStore distributed_client prefix).

(** The options handed to [xla::GetStreamExecutorGpuClient]. *)
Definition cuda_options (environ : Env) (t : Topology)
    (kv : unique_ptr KeyValueStore) : GpuClientOptions :=
  let allowed_devices : option (gset Z) :=
    if 1 <? local_world_size t
    then Some {[ local_process_rank t ]}
    else None in
  {| allocator_config := GetGpuAllocatorConfig environ;
     node_id := global_process_rank t;
     num_nodes := global_world_size t;
     allowed_devices := allowed_devices;
     platform_name := "gpu";
     should_stage_host_to_device_transfers := true;
     kv_store := kv |}.

(** The plugin path, once the table has given a plugin. *)
Definition plugin_client (environ : Env) (plugin : PjRtPlugin)
    (device_type : string)
    : Run (unique_ptr PjRtClient * unique_ptr XlaCoordinator) :=
  _ ← emit absl_InitializeLog;
  '(coordinator, kv_store) ←
    (if requires_xla_coordinator plugin environ
     then
       '(coordinator, kv_store) ←
         create_coordinator environ (plugin_topology environ) "pjrt:";
       mret (Some coordinator, Some kv_store)
     else mret (nullptr, nullptr));
  c_api ← XLA_ASSIGN_OR_RETURN
    (Call_LoadPjrtPlugin (AsciiStrToLower device_type)
       (library_path plugin environ))
    (LoadPjrtPlugin W (AsciiStrToLower device_type)
       (library_path plugin environ));
  _ ← XLA_RETURN_IF_ERROR (Call_InitializePjrtPlugin device_type)
    (InitializePjrtPlugin W device_type);
  let create_options := client_create_options plugin environ in
  client ← XLA_ASSIGN_OR_RETURN
    (Call_GetCApiClient (AsciiStrToUpper device_type) create_options
       kv_store)
    (GetCApiClient W (AsciiStrToUpper device_type) create_options
       kv_store);
  _ ← emit (Call_RegisterProfilerForPlugin c_api);
  mret (client, coordinator).

Definition cpu_client (environ : Env)
    : Run (unique_ptr PjRtClient * unique_ptr XlaCoordinator) :=
  let async :=
    sys_util.GetEnvBool C environ (kEnvPjrtAsyncCpuClient K) true in
  let cpu_device_count :=
    sys_util.GetEnvInt C environ (kEnvNumCpu K) 1 in
  client ← XLA_ASSIGN_OR_RETURN
    (Call_GetPjRtCpuClient async cpu_device_count)
    (GetPjRtCpuClient W async cpu_device_count);
  mret (client, nullptr).

Definition tpu_client (environ : Env)
    : Run (unique_ptr PjRtClient * unique_ptr XlaCoordinator) :=
  _ ← emit absl_InitializeLog;
  let tpu_library_path :=
    sys_util.GetEnvString environ (kEnvTpuLibraryPath K)
      (sys_util.GetEnvString environ (kEnvInferredTpuLibraryPath K)
         "libtpu.so") in
  c_api ← XLA_ASSIGN_OR_RETURN
    (Call_LoadPjrtPlugin "tpu" tpu_library_path)
    (LoadPjrtPlugin W "tpu" tpu_library_path);
  _ ← XLA_RETURN_IF_ERROR (Call_InitializePjrtPlugin "tpu")
    (InitializePjrtPlugin W "tpu");
  client ← XLA_ASSIGN_OR_RETURN
    (Call_GetCApiClient "TPU" ∅ nullptr)
    (GetCApiClient W "TPU" ∅ nullptr);
  _ ← emit (Call_RegisterProfilerForPlugin c_api);
  mret (client, nullptr).

Definition cuda_deprecation : string :=
  StrCat [ "The XLA:CUDA device is deprecated in release 2.8. ";
           "Future releases might remove XLA:CUDA support entirely. ";
           "Use the PyTorch native CUDA backend, instead." ].

Definition cuda_client (environ : Env)
    : Run (unique_ptr PjRtClient * unique_ptr XlaCoordinator) :=
  _ ← emit (TORCH_WARN cuda_deprecation);
  let async :=
    sys_util.GetEnvBool C environ (kEnvPjrtAsyncGpuClient K) true in
  let t := cuda_topology environ in
  '(coordinator, kv_store) ←
    (if 1 <? global_world_size t
     then
       '(coordinator, kv_store) ← create_coordinator environ t "gpu:";
       mret (Some coordinator, Some kv_store)
     else mret (nullptr, nullptr));
  let options := cuda_options environ t kv_store in
  client ← XLA_ASSIGN_OR_RETURN
    (Call_GetStreamExecutorGpuClient options)
    (GetStreamExecutorGpuClient W options);
  mret (client, coordinator).

Definition xpu_client (environ : Env)
    : Run (unique_ptr PjRtClient * unique_ptr XlaCoordinator) :=
  let path :=
    sys_util.GetEnvString environ (kEnvXpuLibraryPath K) "libxpu.so" in
  _ ← XLA_RETURN_IF_ERROR (Call_LoadPjrtPlugin "xpu" path)
    (LoadPjrtPlugin W "xpu" path);
  client ← XLA_ASSIGN_OR_RETURN
    (Call_GetCApiClient "XPU" ∅ nullptr)
    (GetCApiClient W "XPU" ∅ nullptr);
  mret (client, nullptr).

Definition neuron_client (environ : Env)
    : Run (unique_ptr PjRtClient * unique_ptr XlaCoordinator) :=
  let path :=
    sys_util.GetEnvString environ (kEnvNeuronLibraryPath K)
      "libneuronpjrt.so" in
  _ ← XLA_RETURN_IF_ERROR (Call_LoadPjrtPlugin "NEURON" path)
    (LoadPjrtPlugin W "NEURON" path);
  client ← XLA_ASSIGN_OR_RETURN
    (Call_GetCApiClient "NEURON" ∅ nullptr)
    (GetCApiClient W "NEURON" ∅ nullptr);
  mret (client, nullptr).

Definition tpu_legacy_error : Status :=
  XLA_ERROR_WITH_LOCATION W
    (InvalidArgumentError "TPU_LEGACY client is no longer available.").

Definition unknown_device_error (device_type : string) : Status :=
  XLA_ERROR_WITH_LOCATION W
    (InvalidArgumentError
       (StrCat [ "Unknown "; kEnvPjRtDevice K; ": '"; device_type; "'" ])).

(** The end of [InitializePjRt], common to all paths: the check of the
    client, then the tuple. *)
Definition finish (p : unique_ptr PjRtClient * unique_ptr XlaCoordinator)
    : Run (PjRtClient * unique_ptr XlaCoordinator) :=
  let '(client, coordinator) := p in
  client ← ABSL_CHECK client; mret (client, coordinator).

(** [InitializePjRt], run with the plugin table [plugins] and the
    process environment [environ]. *)
Definition InitializePjRt (plugins : Registry) (environ : Env)
    (device_type : string) : Run (PjRtClient * unique_ptr XlaCoordinator) :=
  '(client, coordinator) ←
    (if sys_util.GetEnvBool C environ (kEnvPjrtDynamicPlugins K) false
        && negb (String.eqb device_type "CPU")
     then
       match GetPjRtPlugin plugins device_type with
       | Some plugin => plugin_client environ plugin device_type
       | None => mret (nullptr, nullptr)
       end
     else if String.eqb device_type "CPU" then cpu_client environ
     else if String.eqb device_type "TPU" then tpu_client environ
     else if String.eqb device_type "TPU_LEGACY"
       then return_error tpu_legacy_error
     else if String.eqb device_type "CUDA" then cuda_client environ
     else if String.eqb device_type "XPU" then xpu_client environ
     else if String.eqb device_type "NEURON" then neuron_client environ
     else return_error (unknown_device_error device_type));
  finish (client, coordinator).

End Runtime.

(** ** A concrete setting

    The names of upstream's env_vars.h, the C library's reading of decimal
    text, and collaborators that always succeed.  The general statements
    below do not depend on them; they serve to run the functions on actual
    environments.

    [atol] reads as [strtol] does in base 10: leading white space, a sign,
    digits, with saturation at the ends of [long].  [atof] reads white
    space, a sign, digits, a fraction and a decimal exponent; its result
    is the correctly rounded one when the digits fit 53 bits and the power
    of ten is at most 22 in size.  Hexadecimal notation, infinities and
    NaN are not read. *)

Module Std.

Definition names : env_vars :=
  {| kEnvPjRtDevice := "PJRT_DEVICE";
     kEnvPjrtDynamicPlugins := "PJRT_DYNAMIC_PLUGINS";
     kEnvPjRtLocalRank := "PJRT_LOCAL_PROCESS_RANK";
     kEnvPjRtLocalProcessCount := "PJRT_LOCAL_PROCESS_COUNT";
     kEnvPjrtAsyncCpuClient := "PJRT_CPU_ASYNC_CLIENT";
     kEnvNumCpu := "CPU_NUM_DEVICES";
     kEnvTpuLibraryPath := "TPU_LIBRARY_PATH";
     kEnvInferredTpuLibraryPath := "PTXLA_TPU_LIBRARY_PATH";
     kEnvPjrtAsyncGpuClient := "PJRT_GPU_ASYNC_CLIENT";
     kEnvPjrtAllocatorCudaAsync := "PJRT_ALLOCATOR_CUDA_ASYNC";
     kEnvPjrtAllocatorPreallocate := "PJRT_ALLOCATOR_PREALLOCATE";
     kEnvPjrtAllocatorFraction := "PJRT_ALLOCATOR_FRACTION";
     kEnvXpuLibraryPath := "XPU_LIBRARY_PATH";
     kEnvNeuronLibraryPath := "NEURON_LIBRARY_PATH";
     kDefaultCoordinatorPort := "8547" |}.

Definition is_digit (c : ascii) : bool :=
  let n := nat_of_ascii c in ((48 <=? n) && (n <=? 57))%nat.

Definition digit_value (c : ascii) : Z := Z.of_nat (nat_of_ascii c) - 48.

(** The number spelled by the leading digits of [s], the count of those
    digits, and the rest of [s]. *)
Fixpoint digits (acc : Z) (count : nat) (s : string) : Z * nat * string :=
  match s with
  | String c r =>
      if is_digit c then digits (10 * acc + digit_value c) (S count) r
      else (acc, count, s)
  | EmptyString => (acc, count, s)
  end.

Definition unsigned_integer (s : string) : Z := (digits 0 0 s).1.1.

Definition is_space (c : ascii) : bool :=
  let n := nat_of_ascii c in ((n =? 32) || ((9 <=? n) && (n <=? 13)))%nat.

Fixpoint skip_space (s : string) : string :=
  match s with
  | String c r => if is_space c then skip_space r else s
  | EmptyString => s
  end.

Definition signed_integer (s : string) : Z :=
  match s with
  | String "-" r => - unsigned_integer r
  | String "+" r => unsigned_integer r
  | _ => unsigned_integer s
  end.

Definition to_long (z : Z) : Z := Z.max (- 2 ^ 63) (Z.min (2 ^ 63 - 1) z).

Definition atol (s : string) : Z := to_long (signed_integer (skip_space s)).

Definition to_int (z : Z) : Z := (z + 2 ^ 31) mod 2 ^ 32 - 2 ^ 31.

Definition float_of_Z (z : Z) : float :=
  PrimFloat.of_uint63 (Uint63.of_Z z).

Definition is_exponent_mark (c : ascii) : bool :=
  let n := nat_of_ascii c in ((n =? 101) || (n =? 69))%nat.

Definition unsigned_decimal (s : string) : float :=
  let '(whole, _, rest) := digits 0 0 s in
  let '(mantissa, places, rest) :=
    match rest with
    | String "." r => digits whole 0 r
    | _ => (whole, 0%nat, rest)
    end in
  let exponent :=
    match rest with
    | String c r => if is_exponent_mark c then signed_integer r else 0
    | EmptyString => 0
    end in
  let power := exponent - Z.of_nat places in
  if 0 <=? power
  then (float_of_Z mantissa * float_of_Z (10 ^ power))%float
  else (float_of_Z mantissa / float_of_Z (10 ^ (- power)))%float.

Definition atof (s : string) : float :=
  match skip_space s with
  | String "-" r => (- unsigned_decimal r)%float
  | String "+" r => unsigned_decimal r
  | r => unsigned_decimal r
  end.

Definition conversions : Conversions :=
  {| EnvToInt := fun s => to_int (atol s);
     EnvToBool := fun s =>
       if String.eqb s "true" then true
       else if String.eqb s "false" then false
       else negb (to_int (atol s) =? 0);
     EnvToDouble := atof |}.

(** Collaborators that succeed: coordinator 1 over distributed client 2,
    API table 3, client 4. *)
Definition externals : Externals :=
  {| XLA_ERROR_WITH_LOCATION := fun s => s;
     XLA_PROPAGATE := fun s => s;
     GpuAllocatorConfig_default :=
       {| kind := kDefault; memory_fraction := 0.75%float;
          preallocate := true |};
     XlaCoordinator_Create := fun _ _ _ _ => IsOk 1%N;
     XlaCoordinator_GetClient := fun _ => 2%N;
     LoadPjrtPlugin := fun _ _ => IsOk 3%N;
     InitializePjrtPlugin := fun _ => IsOk tt;
     GetCApiClient := fun _ _ _ => IsOk (Some 4%N);
     GetPjRtCpuClient := fun _ _ => IsOk (Some 4%N);
     GetStreamExecutorGpuClient := fun _ => IsOk (Some 4%N) |}.

(** A plugin that asks for a coordinator. *)
Definition coordinated_plugin : PjRtPlugin :=
  {| library_path := fun _ => "libplugin.so";
     client_create_options := fun _ => ∅;
     requires_xla_coordinator := fun _ => true |}.

End Std.

(** The topology of a process that runs alone. *)
Definition single_process : Topology :=
  {| local_process_rank := 0; global_process_rank := 0;
     local_world_size := 1; global_world_size := 1 |}.

(** None of the names that the topology is read from is set. *)
Definition no_topology_overrides (K : env_vars) (environ : Env) : Prop :=
  environ !! kEnvPjRtLocalRank K = None /\
  environ !! "LOCAL_RANK" = None /\
  environ !! "RANK" = None /\
  environ !! kEnvPjRtLocalProcessCount K = None /\
  environ !! "LOCAL_WORLD_SIZE" = None /\
  environ !! "WORLD_SIZE" = None.

(** [needle] occurs in [s]. *)
Definition names_identifier (s needle : string) : Prop :=
  exists before after, s = before ++ needle ++ after.

(** ** Reading a trace *)

Definition is_coordinator_create (c : Call) : bool :=
  match c with
  | Call_XlaCoordinator_Create _ _ _ _ => true
  | _ => false
  end.

(** The three calls that build a client. *)
Definition is_client_factory (c : Call) : bool :=
  match c with
  | Call_GetCApiClient _ _ _ => true
  | Call_GetPjRtCpuClient _ _ => true
  | Call_GetStreamExecutorGpuClient _ => true
  | _ => false
  end.

Definition is_warning (c : Call) : bool :=
  match c with
  | TORCH_WARN _ => true
  | _ => false
  end.

(** The calls that the TPU and plugin paths make around the load of the
    library: the plugin's own initialisation and the profiler hook. *)
Definition is_plugin_setup (c : Call) : bool :=
  match c with
  | Call_InitializePjrtPlugin _ => true
  | Call_RegisterProfilerForPlugin _ => true
  | _ => false
  end.

Definition coordinator_created (tr : list Call) : bool :=
  existsb is_coordinator_create tr.

Definition client_factory_calls (tr : list Call) : nat :=
  length (List.filter is_client_factory tr).


(** ** Collaborators with a coordinator that cannot be reached *)

Module Faulty.

Definition unreachable : Status :=
  {| code := kUnavailable; message := "coordinator unreachable" |}.

Definition externals : Externals :=
  {| XLA_ERROR_WITH_LOCATION := fun s => s;
     XLA_PROPAGATE := fun s => s;
     GpuAllocatorConfig_default :=
       GpuAllocatorConfig_default Std.externals;
     XlaCoordinator_Create := fun _ _ _ _ => NotOk unreachable;
     XlaCoordinator_GetClient := fun _ => 2%N;
     LoadPjrtPlugin := fun _ _ => IsOk 3%N;
     InitializePjrtPlugin := fun _ => IsOk tt;
     GetCApiClient := fun _ _ _ => IsOk (Some 4%N);
     GetPjRtCpuClient := fun _ _ => IsOk (Some 4%N);
     GetStreamExecutorGpuClient := fun _ => IsOk (Some 4%N) |}.

End Faulty.

(** * Facts about runs *)

Section RunFacts.

Context {A B : Type}.
Implicit Types (m : Run A) (k : A -> Run B).

Lemma bind_returned m k tr a :
  m = (tr, Returned a) ->
  m ≫= k = ((tr ++ trace (k a))%list, outcome (k a)).
Proof. intros ->. reflexivity. Qed.

Lemma bind_failed m k tr s :
  m = (tr, Failed s) -> m ≫= k = (tr, Failed s).
Proof. intros ->. reflexivity. Qed.

Lemma bind_check_failed m k tr :
  m = (tr, CheckFailed) -> m ≫= k = (tr, CheckFailed).
Proof. intros ->. reflexivity. Qed.

(** A bind that returns: both halves returned, and the trace is the two
    traces in order. *)
Lemma bind_returned_inv m k tr b :
  m ≫= k = (tr, Returned b) ->
  exists tr1 a tr2,
    m = (tr1, Returned a) /\ k a = (tr2, Returned b) /\
    tr = (tr1 ++ tr2)%list.
Proof.
  destruct m as [tr1 [a | s |]]; cbn; intros H; try discriminate.
  destruct (k a) as [tr2 o] eqn:Hk. cbn in H.
  injection H as <- ->. by exists tr1, a, tr2.
Qed.

(** The trace of a bind starts with the trace of its first half. *)
Lemma trace_bind_l m k c : c ∈ trace m -> c ∈ trace (m ≫= k).
Proof.
  destruct m as [tr1 [a | s |]]; cbn; intros H; try done.
  apply elem_of_app. by left.
Qed.

Lemma trace_bind_inv m k c :
  c ∈ trace (m ≫= k) ->
  c ∈ trace m \/ exists a, outcome m = Returned a /\ c ∈ trace (k a).
Proof.
  destruct m as [tr1 [a | s |]]; cbn; intros H; try by left.
  apply elem_of_app in H as [H | H]; [by left | right; eauto].
Qed.

End RunFacts.

(** * Facts about strings *)

Lemma append_assoc (s1 s2 s3 : string) : (s1 ++ s2) ++ s3 = s1 ++ s2 ++ s3.
Proof.
  induction s1 as [| c s1 IH]; [reflexivity |].
  change (String c ((s1 ++ s2) ++ s3) = String c (s1 ++ s2 ++ s3)).
  by rewrite IH.
Qed.

Lemma append_empty_r (s : string) : s ++ EmptyString = s.
Proof.
  induction s as [| c s IH]; [reflexivity |].
  change (String c (s ++ EmptyString) = String c s).
  by rewrite IH.
Qed.

(** * The dispatch of [InitializePjRt] *)

Section Dispatch.

Variable K : env_vars.
Variable C : Conversions.
Variable W : Externals.
Implicit Types (plugins : Registry) (environ : Env) (device_type : string).

Local Abbreviation dynamic_plugins environ :=
  (sys_util.GetEnvBool C environ (kEnvPjrtDynamicPlugins K) false).

(** With the flag on and a device type other than CPU, the table decides. *)
Lemma InitializePjRt_dynamic plugins environ device_type :
  dynamic_plugins environ = true ->
  device_type <> "CPU" ->
  InitializePjRt K C W plugins environ device_type =
    match plugins !! device_type with
    | Some plugin => plugin_client K C W environ plugin device_type ≫= finish
    | None => ([], CheckFailed)
    end.
Proof.
  intros Hflag Hcpu. unfold InitializePjRt, GetPjRtPlugin.
  rewrite Hflag.
  apply String.eqb_neq in Hcpu. rewrite Hcpu. cbn [negb andb].
  destruct (plugins !! device_type); reflexivity.
Qed.

(** With the flag off, the fixed names decide. *)
Lemma InitializePjRt_static plugins environ device_type :
  dynamic_plugins environ = false ->
  InitializePjRt K C W plugins environ device_type =
    (if String.eqb device_type "CPU" then cpu_client K C W environ
     else if String.eqb device_type "TPU" then tpu_client K W environ
     else if String.eqb device_type "TPU_LEGACY"
       then return_error (tpu_legacy_error W)
     else if String.eqb device_type "CUDA" then cuda_client K C W environ
     else if String.eqb device_type "XPU" then xpu_client K W environ
     else if String.eqb device_type "NEURON"
       then neuron_client K W environ
     else return_error (unknown_device_error K W device_type))
    ≫= finish.
Proof.
  intros Hflag. unfold InitializePjRt. rewrite Hflag. reflexivity.
Qed.

Lemma InitializePjRt_cuda plugins environ :
  dynamic_plugins environ = false ->
  InitializePjRt K C W plugins environ "CUDA" =
    cuda_client K C W environ ≫= finish.
Proof. intros Hflag. by rewrite InitializePjRt_static. Qed.

(** A run that returns hands out a client that is not null: each call
    point of [finish] passed the check. *)
Lemma finish_returned p tr client coordinator :
  finish p = (tr, Returned (client, coordinator)) ->
  p = (Some client, coordinator) /\ tr = [].
Proof.
  destruct p as [[c |] co]; cbn; intros H; [| discriminate].
  by injection H as <- <- <-.
Qed.

Lemma trace_finish p : trace (finish p) = [].
Proof. by destruct p as [[c |] co]. Qed.

End Dispatch.

(** ** The dynamic-plugin path without a plugin *)

(** C1.  When the dynamic-plugins flag is on, the device type is not "CPU"
    and the plugin table has no entry for it, [InitializePjRt] makes no
    call at all -- it builds no client -- and ends in the failed
    non-null-client check; no status is returned. *)
Theorem InitializePjRt_unregistered_plugin_check_fails
    (K : env_vars) (C : Conversions) (W : Externals)
    (plugins : Registry) (environ : Env) (device_type : string) :
  sys_util.GetEnvBool C environ (kEnvPjrtDynamicPlugins K) false = true ->
  device_type <> "CPU" ->
  GetPjRtPlugin plugins device_type = nullptr ->
  InitializePjRt K C W plugins environ device_type = ([], CheckFailed).
Proof.
  intros Hflag Hcpu Habsent.
  rewrite InitializePjRt_dynamic by done.
  unfold GetPjRtPlugin in Habsent.
  by destruct (plugins !! device_type).
Qed.

Lemma InitializePjRt_unregistered_plugin_witness :
  InitializePjRt Std.names Std.conversions Std.externals pjrt_plugins_
    {[ "PJRT_DYNAMIC_PLUGINS" := "1" ]} "FOO" = ([], CheckFailed).
Proof.
  apply InitializePjRt_unregistered_plugin_check_fails.
  - vm_compute. reflexivity.
  - discriminate.
  - vm_compute. reflexivity.
Defined.

(** ** The retired identifier *)

(** C2, as the code has it.  With the dynamic-plugins flag off, whatever
    else the environment and the plugin table hold, "TPU_LEGACY" makes no
    call and returns the InvalidArgument status saying that the client is
    no longer available. *)
Theorem InitializePjRt_TPU_LEGACY_unavailable
    (K : env_vars) (C : Conversions) (W : Externals)
    (plugins : Registry) (environ : Env) :
  sys_util.GetEnvBool C environ (kEnvPjrtDynamicPlugins K) false = false ->
  InitializePjRt K C W plugins environ "TPU_LEGACY" =
    ([], Failed (XLA_ERROR_WITH_LOCATION W
                   (InvalidArgumentError
                      "TPU_LEGACY client is no longer available."))).
Proof. intros Hflag. by rewrite InitializePjRt_static. Qed.

Lemma InitializePjRt_TPU_LEGACY_unavailable_witness :
  InitializePjRt Std.names Std.conversions Std.externals pjrt_plugins_
    {[ "PJRT_DYNAMIC_PLUGINS" := "0"; "WORLD_SIZE" := "8" ]} "TPU_LEGACY" =
    ([], Failed (InvalidArgumentError
                   "TPU_LEGACY client is no longer available.")).
Proof.
  apply (InitializePjRt_TPU_LEGACY_unavailable
           Std.names Std.conversions Std.externals).
  vm_compute. reflexivity.
Defined.

(** C2 as worded fails: with the flag on and a plugin registered under
    "TPU_LEGACY", the plugin path is taken and a client comes back. *)
Lemma InitializePjRt_TPU_LEGACY_plugin_client :
  let r := InitializePjRt Std.names Std.conversions Std.externals
             (RegisterPjRtPlugin "TPU_LEGACY" Std.coordinated_plugin
                pjrt_plugins_)
             {[ "PJRT_DYNAMIC_PLUGINS" := "true" ]} "TPU_LEGACY" in
  outcome r = Returned (4%N, Some 1%N) /\
  outcome r <> Failed (InvalidArgumentError
                         "TPU_LEGACY client is no longer available.").
Proof. split; [vm_compute; reflexivity | vm_compute; discriminate]. Qed.

(** ** Unknown identifiers *)

(** With the flag off, a device type outside the fixed names makes no call
    and returns InvalidArgument; the message handed to the location macro
    spells the device type. *)
Lemma InitializePjRt_unknown_static
    (K : env_vars) (C : Conversions) (W : Externals)
    (plugins : Registry) (environ : Env) (device_type : string) :
  sys_util.GetEnvBool C environ (kEnvPjrtDynamicPlugins K) false = false ->
  device_type ∉ ["CPU"; "TPU"; "TPU_LEGACY"; "CUDA"; "XPU"; "NEURON"] ->
  exists msg,
    InitializePjRt K C W plugins environ device_type =
      ([], Failed (XLA_ERROR_WITH_LOCATION W (InvalidArgumentError msg))) /\
    names_identifier msg device_type.
Proof.
  intros Hflag Hnot.
  exists (StrCat [ "Unknown "; kEnvPjRtDevice K; ": '"; device_type; "'" ]).
  split.
  - rewrite InitializePjRt_static by done.
    repeat match goal with
    | |- context [String.eqb device_type ?s] =>
        let E := fresh in
        destruct (String.eqb_spec device_type s) as [E | E];
        [exfalso; apply Hnot; rewrite E; set_solver |]
    end.
    reflexivity.
  - exists ("Unknown " ++ kEnvPjRtDevice K ++ ": '"), "'".
    unfold StrCat. cbn [fold_right].
    by rewrite append_empty_r, !append_assoc.
Qed.

(** C3 at a failing input.  With the flag on, the unknown and unregistered
    device type "ROCM" gets no InvalidArgument status: the run ends in the
    failed check. *)
Theorem InitializePjRt_unknown_dynamic_check_fails :
  GetPjRtPlugin pjrt_plugins_ "ROCM" = nullptr /\
  InitializePjRt Std.names Std.conversions Std.externals pjrt_plugins_
    {[ "PJRT_DYNAMIC_PLUGINS" := "true" ]} "ROCM" = ([], CheckFailed).
Proof. split; vm_compute; reflexivity. Qed.

(** * The CUDA path *)

Section Cuda.

Variable K : env_vars.
Variable C : Conversions.
Variable W : Externals.
Variable environ : Env.

Let t := cuda_topology K C environ.
Let master_addr := sys_util.GetEnvString environ "MASTER_ADDR" "localhost".
Let port :=
  sys_util.GetEnvString environ "XLA_COORDINATOR_PORT"
    (kDefaultCoordinatorPort K).

(** One process in the job: the client is built straight away. *)
Lemma cuda_client_alone :
  global_world_size t <= 1 ->
  cuda_client K C W environ =
    let options := cuda_options K C W environ t nullptr in
    ([TORCH_WARN cuda_deprecation;
      Call_GetStreamExecutorGpuClient options],
     match GetStreamExecutorGpuClient W options with
     | IsOk client => Returned (client, nullptr)
     | NotOk s => Failed (XLA_PROPAGATE W s)
     end).
Proof.
  intros Hle. unfold cuda_client. fold t.
  replace (1 <? global_world_size t) with false
    by (symmetry; apply Z.ltb_ge; lia).
  cbn -[cuda_options].
  by destruct (GetStreamExecutorGpuClient W _).
Qed.

(** Several processes: the coordinator comes first, and a coordinator
    that cannot be created ends the run. *)
Lemma cuda_client_distributed :
  1 < global_world_size t ->
  cuda_client K C W environ =
    let create :=
      Call_XlaCoordinator_Create (global_process_rank t)
        (global_world_size t) master_addr port in
    match XlaCoordinator_Create W (global_process_rank t)
            (global_world_size t) master_addr port with
    | NotOk s =>
        ([TORCH_WARN cuda_deprecation; create], Failed (XLA_PROPAGATE W s))
    | IsOk coordinator =>
        let options :=
          cuda_options K C W environ t
            (Some (GetDistributedKeyValueStore
                     (XlaCoordinator_GetClient W coordinator) "gpu:")) in
        ([TORCH_WARN cuda_deprecation; create;
          Call_GetStreamExecutorGpuClient options],
         match GetStreamExecutorGpuClient W options with
         | IsOk client => Returned (client, Some coordinator)
         | NotOk s => Failed (XLA_PROPAGATE W s)
         end)
    end.
Proof.
  intros Hlt. unfold cuda_client, create_coordinator.
  fold t master_addr port.
  replace (1 <? global_world_size t) with true
    by (symmetry; apply Z.ltb_lt; lia).
  destruct (XlaCoordinator_Create W _ _ _ _) as [coordinator | s];
    cbn -[cuda_options]; [| done].
  by destruct (GetStreamExecutorGpuClient W _).
Qed.

End Cuda.

Lemma trace_bind_finish
    (m : Run (unique_ptr PjRtClient * unique_ptr XlaCoordinator)) :
  trace (m ≫= finish) = trace m.
Proof.
  destruct m as [tr [p | s |]]; cbn; try done.
  change ((finish p).1) with (trace (finish p)).
  by rewrite trace_finish, app_nil_r.
Qed.

Lemma InitializePjRt_cuda_returned
    (K : env_vars) (C : Conversions) (W : Externals)
    (plugins : Registry) (environ : Env) tr client coordinator :
  sys_util.GetEnvBool C environ (kEnvPjrtDynamicPlugins K) false = false ->
  InitializePjRt K C W plugins environ "CUDA" =
    (tr, Returned (client, coordinator)) ->
  cuda_client K C W environ = (tr, Returned (Some client, coordinator)).
Proof.
  intros Hflag Hrun. rewrite InitializePjRt_cuda in Hrun by done.
  apply bind_returned_inv in Hrun as (tr1 & p & tr2 & Hm & Hfin & ->).
  apply finish_returned in Hfin as [-> ->].
  by rewrite app_nil_r.
Qed.

(** C4.  On the CUDA path with the dynamic-plugins flag off, for a call
    that returns: when the global world size is 1 no coordinator was
    created and the coordinator slot of the result is empty; when it is
    greater than 1 the coordinator was created and the slot holds it. *)
Theorem InitializePjRt_cuda_coordinator
    (K : env_vars) (C : Conversions) (W : Externals)
    (plugins : Registry) (environ : Env) tr client coordinator :
  sys_util.GetEnvBool C environ (kEnvPjrtDynamicPlugins K) false = false ->
  InitializePjRt K C W plugins environ "CUDA" =
    (tr, Returned (client, coordinator)) ->
  let t := cuda_topology K C environ in
  let master_addr :=
    sys_util.GetEnvString environ "MASTER_ADDR" "localhost" in
  let port :=
    sys_util.GetEnvString environ "XLA_COORDINATOR_PORT"
      (kDefaultCoordinatorPort K) in
  (global_world_size t = 1 ->
     coordinator = nullptr /\
     forall rank size addr p,
       Call_XlaCoordinator_Create rank size addr p ∉ tr) /\
  (1 < global_world_size t ->
     exists c,
       coordinator = Some c /\
       XlaCoordinator_Create W (global_process_rank t) (global_world_size t)
         master_addr port = IsOk c /\
       Call_XlaCoordinator_Create (global_process_rank t)
         (global_world_size t) master_addr port ∈ tr).
Proof.
  intros Hflag Hrun t master_addr port.
  apply InitializePjRt_cuda_returned in Hrun; [| done].
  split; intros Hsize.
  - rewrite cuda_client_alone in Hrun by (fold t; lia).
    cbv zeta in Hrun.
    destruct (GetStreamExecutorGpuClient W _) as [c | s];
      [| discriminate].
    injection Hrun as <- _ <-. split; [done |].
    intros rank size addr p Hin.
    apply elem_of_cons in Hin as [Hin | Hin]; [discriminate |].
    apply list_elem_of_singleton in Hin. discriminate.
  - rewrite cuda_client_distributed in Hrun by done.
    cbv zeta in Hrun. fold t master_addr port in Hrun.
    destruct (XlaCoordinator_Create W _ _ _ _) as [c | s];
      [| discriminate].
    destruct (GetStreamExecutorGpuClient W _) as [c' | s];
      [| discriminate].
    injection Hrun as <- _ <-. exists c. split; [done |]. split; [done |].
    set_solver.
Qed.

Lemma InitializePjRt_cuda_coordinator_witness :
  ((global_world_size (cuda_topology Std.names Std.conversions ∅) = 1 ->
    (@nullptr XlaCoordinator) = nullptr /\
    forall rank size addr p,
      Call_XlaCoordinator_Create rank size addr p ∉
        trace (InitializePjRt Std.names Std.conversions Std.externals
                 pjrt_plugins_ ∅ "CUDA")) /\
   (1 < global_world_size
          (cuda_topology Std.names Std.conversions {[ "WORLD_SIZE" := "4" ]}) ->
    exists c,
      Some 1%N = Some c /\
      IsOk 1%N = IsOk c /\
      Call_XlaCoordinator_Create 0 4 "localhost" "8547" ∈
        trace (InitializePjRt Std.names Std.conversions Std.externals
                 pjrt_plugins_ {[ "WORLD_SIZE" := "4" ]} "CUDA"))).
Proof.
  split.
  - refine (proj1 (InitializePjRt_cuda_coordinator
             Std.names Std.conversions Std.externals pjrt_plugins_ ∅
             _ 4%N None _ _)).
    + vm_compute. reflexivity.
    + vm_compute. reflexivity.
  - refine (proj2 (InitializePjRt_cuda_coordinator
             Std.names Std.conversions Std.externals pjrt_plugins_
             {[ "WORLD_SIZE" := "4" ]} _ 4%N (Some 1%N) _ _)).
    + vm_compute. reflexivity.
    + vm_compute. reflexivity.
Defined.

(** Every call to the GPU client factory on the CUDA path carries the
    options computed by [cuda_options]. *)
Lemma cuda_client_factory_calls
    (K : env_vars) (C : Conversions) (W : Externals) (environ : Env)
    (options : GpuClientOptions) :
  Call_GetStreamExecutorGpuClient options ∈
    trace (cuda_client K C W environ) ->
  exists kv,
    options = cuda_options K C W environ (cuda_topology K C environ) kv.
Proof.
  destruct (Z_le_gt_dec (global_world_size (cuda_topology K C environ)) 1)
    as [Hle | Hgt].
  - rewrite cuda_client_alone by done. cbv zeta. cbn [trace fst].
    intros Hin. apply elem_of_cons in Hin as [Hin | Hin]; [discriminate |].
    apply list_elem_of_singleton in Hin. injection Hin as ->. eauto.
  - rewrite cuda_client_distributed by lia. cbv zeta.
    destruct (XlaCoordinator_Create W _ _ _ _) as [c | s]; cbn [trace fst];
      intros Hin.
    + apply elem_of_cons in Hin as [Hin | Hin]; [discriminate |].
      apply elem_of_cons in Hin as [Hin | Hin]; [discriminate |].
      apply list_elem_of_singleton in Hin. injection Hin as ->. eauto.
    + apply elem_of_cons in Hin as [Hin | Hin]; [discriminate |].
      apply list_elem_of_singleton in Hin. discriminate.
Qed.

(** C6.  On the CUDA path with the dynamic-plugins flag off, the options
    given to the client factory allow exactly the device [local_rank] when
    the local world size is greater than 1, and carry no restriction when
    it is 1.  The factory is reached whenever no coordinator is needed or
    the coordinator could be created. *)
Theorem InitializePjRt_cuda_allowed_devices
    (K : env_vars) (C : Conversions) (W : Externals)
    (plugins : Registry) (environ : Env) :
  sys_util.GetEnvBool C environ (kEnvPjrtDynamicPlugins K) false = false ->
  let t := cuda_topology K C environ in
  let r := InitializePjRt K C W plugins environ "CUDA" in
  (forall options,
     Call_GetStreamExecutorGpuClient options ∈ trace r ->
     (1 < local_world_size t ->
        allowed_devices options = Some {[ local_process_rank t ]}) /\
     (local_world_size t = 1 -> allowed_devices options = None)) /\
  (global_world_size t <= 1 \/
   (exists c,
      XlaCoordinator_Create W (global_process_rank t) (global_world_size t)
        (sys_util.GetEnvString environ "MASTER_ADDR" "localhost")
        (sys_util.GetEnvString environ "XLA_COORDINATOR_PORT"
           (kDefaultCoordinatorPort K)) = IsOk c) ->
   exists options, Call_GetStreamExecutorGpuClient options ∈ trace r).
Proof.
  intros Hflag t r. subst r.
  rewrite InitializePjRt_cuda by done. rewrite trace_bind_finish.
  split.
  - intros options Hin.
    apply cuda_client_factory_calls in Hin as [kv ->]. fold t.
    unfold cuda_options. cbn [allowed_devices].
    split; intros Hsize.
    + by replace (1 <? local_world_size t) with true
        by (symmetry; apply Z.ltb_lt; lia).
    + by replace (1 <? local_world_size t) with false
        by (symmetry; apply Z.ltb_ge; lia).
  - destruct (Z_le_gt_dec (global_world_size t) 1) as [Hle | Hgt].
    + intros _. rewrite cuda_client_alone by done. cbv zeta.
      eexists. cbn [trace fst].
      apply elem_of_cons; right. apply elem_of_cons; left. reflexivity.
    + intros [Hle | [c Hc]]; [lia |].
      rewrite cuda_client_distributed by (fold t; lia). cbv zeta.
      fold t. rewrite Hc. eexists. cbn [trace fst].
      do 2 (apply elem_of_cons; right). apply elem_of_cons; left.
      reflexivity.
Qed.

Lemma InitializePjRt_cuda_allowed_devices_witness :
  let environ : Env :=
    {[ "LOCAL_WORLD_SIZE" := "2"; "PJRT_LOCAL_PROCESS_RANK" := "1" ]} in
  let r := InitializePjRt Std.names Std.conversions Std.externals
             pjrt_plugins_ environ "CUDA" in
  exists options,
    Call_GetStreamExecutorGpuClient options ∈ trace r /\
    allowed_devices options = Some {[ 1 ]}.
Proof.
  intros environ r.
  destruct (InitializePjRt_cuda_allowed_devices
              Std.names Std.conversions Std.externals pjrt_plugins_ environ)
    as [Hall Hreach].
  - vm_compute. reflexivity.
  - destruct Hreach as [options Hin].
    + right. exists 1%N. vm_compute. reflexivity.
    + exists options. split; [exact Hin |].
      apply (Hall options Hin). vm_compute. reflexivity.
Defined.

(** * The plugin path *)

(** Closes a goal [c ∈ tr -> _] when the listed trace [tr] has no call of
    the shape of [c]. *)
Ltac no_factory_call :=
  let Hin := fresh "Hin" in
  intros Hin;
  repeat (apply elem_of_cons in Hin as [Hin | Hin]; [discriminate |]);
  by apply elem_of_nil in Hin.

Section Plugin.

Variable K : env_vars.
Variable C : Conversions.
Variable W : Externals.
Variable environ : Env.
Variable plugin : PjRtPlugin.
Variable device_type : string.

Let t := plugin_topology K C environ.
Let master_addr := sys_util.GetEnvString environ "MASTER_ADDR" "localhost".
Let port :=
  sys_util.GetEnvString environ "XLA_COORDINATOR_PORT"
    (kDefaultCoordinatorPort K).

Hypothesis Hcoordinated : requires_xla_coordinator plugin environ = true.

(** A plugin that asks for a coordinator has its client built over the
    store of that coordinator, under the prefix written in the source. *)
Lemma plugin_client_factory_calls name create_options kv :
  Call_GetCApiClient name create_options kv ∈
    trace (plugin_client K C W environ plugin device_type) ->
  exists coordinator,
    XlaCoordinator_Create W (global_process_rank t) (global_world_size t)
      master_addr port = IsOk coordinator /\
    kv = Some (GetDistributedKeyValueStore
                 (XlaCoordinator_GetClient W coordinator) "pjrt:").
Proof.
  unfold plugin_client, create_coordinator. rewrite Hcoordinated.
  fold t master_addr port.
  destruct (XlaCoordinator_Create W _ _ _ _) as [coordinator | s]
    eqn:Hcreate; cbn; [| no_factory_call].
  destruct (LoadPjrtPlugin W _ _) as [c_api | s]; cbn;
    [| no_factory_call].
  destruct (InitializePjrtPlugin W _) as [u | s]; cbn;
    [| no_factory_call].
  destruct (GetCApiClient W _ _ _) as [client | s]; cbn;
    intros Hin;
    repeat (apply elem_of_cons in Hin as [Hin | Hin];
              [first [discriminate
                     | injection Hin as -> -> ->; by exists coordinator] |]);
    by apply elem_of_nil in Hin.
Qed.

(** The factory is reached once the coordinator, the library and the
    plugin's own initialisation have succeeded. *)
Lemma plugin_client_reaches_factory coordinator c_api :
  XlaCoordinator_Create W (global_process_rank t) (global_world_size t)
    master_addr port = IsOk coordinator ->
  LoadPjrtPlugin W (AsciiStrToLower device_type)
    (library_path plugin environ) = IsOk c_api ->
  InitializePjrtPlugin W device_type = IsOk tt ->
  Call_GetCApiClient (AsciiStrToUpper device_type)
    (client_create_options plugin environ)
    (Some (GetDistributedKeyValueStore
             (XlaCoordinator_GetClient W coordinator) "pjrt:")) ∈
    trace (plugin_client K C W environ plugin device_type).
Proof.
  intros Hcreate Hload Hinit.
  unfold plugin_client, create_coordinator. rewrite Hcoordinated.
  fold t master_addr port. rewrite Hcreate. cbn.
  rewrite Hload. cbn. rewrite Hinit. cbn.
  destruct (GetCApiClient W _ _ _) as [client | s]; cbn;
    do 4 (apply elem_of_cons; right); apply elem_of_cons; by left.
Qed.

End Plugin.

(** C5, as the code has it.  On the plugin path, when the plugin asks for
    a coordinator, every call that builds the client is given a key-value
    store whose prefix is "pjrt:"; and the client is built in this way once
    the coordinator, the library load and the plugin initialisation have
    succeeded. *)
Theorem InitializePjRt_plugin_key_prefix
    (K : env_vars) (C : Conversions) (W : Externals)
    (plugins : Registry) (environ : Env) (device_type : string)
    (plugin : PjRtPlugin) :
  sys_util.GetEnvBool C environ (kEnvPjrtDynamicPlugins K) false = true ->
  device_type <> "CPU" ->
  GetPjRtPlugin plugins device_type = Some plugin ->
  requires_xla_coordinator plugin environ = true ->
  let t := plugin_topology K C environ in
  let r := InitializePjRt K C W plugins environ device_type in
  (forall name create_options kv,
     Call_GetCApiClient name create_options kv ∈ trace r ->
     exists store, kv = Some store /\ key_prefix store = "pjrt:") /\
  (forall coordinator c_api,
     XlaCoordinator_Create W (global_process_rank t) (global_world_size t)
       (sys_util.GetEnvString environ "MASTER_ADDR" "localhost")
       (sys_util.GetEnvString environ "XLA_COORDINATOR_PORT"
          (kDefaultCoordinatorPort K)) = IsOk coordinator ->
     LoadPjrtPlugin W (AsciiStrToLower device_type)
       (library_path plugin environ) = IsOk c_api ->
     InitializePjrtPlugin W device_type = IsOk tt ->
     exists store,
       key_prefix store = "pjrt:" /\
       kv_client store = XlaCoordinator_GetClient W coordinator /\
       Call_GetCApiClient (AsciiStrToUpper device_type)
         (client_create_options plugin environ) (Some store) ∈ trace r).
Proof.
  intros Hflag Hcpu Hplugin Hcoordinated t r. subst r.
  rewrite InitializePjRt_dynamic by done.
  unfold GetPjRtPlugin in Hplugin.
  destruct (plugins !! device_type) as [plugin' |]; [| discriminate].
  injection Hplugin as ->. rewrite trace_bind_finish.
  split.
  - intros name create_options kv Hin.
    apply plugin_client_factory_calls in Hin as (c & _ & ->); [| done].
    by eexists.
  - intros coordinator c_api Hcreate Hload Hinit.
    eexists. split; [| split]; cycle 2.
    + by eapply plugin_client_reaches_factory.
    + reflexivity.
    + reflexivity.
Qed.

Lemma InitializePjRt_plugin_key_prefix_witness :
  let r := InitializePjRt Std.names Std.conversions Std.externals
             (RegisterPjRtPlugin "FOO" Std.coordinated_plugin pjrt_plugins_)
             {[ "PJRT_DYNAMIC_PLUGINS" := "1" ]} "FOO" in
  exists store,
    key_prefix store = "pjrt:" /\
    kv_client store = 2%N /\
    Call_GetCApiClient "FOO" ∅ (Some store) ∈ trace r.
Proof.
  intros r.
  refine (proj2 (InitializePjRt_plugin_key_prefix
            Std.names Std.conversions Std.externals
            (RegisterPjRtPlugin "FOO" Std.coordinated_plugin pjrt_plugins_)
            {[ "PJRT_DYNAMIC_PLUGINS" := "1" ]} "FOO" Std.coordinated_plugin
            _ _ _ _) 1%N 3%N _ _ _).
  - vm_compute. reflexivity.
  - discriminate.
  - vm_compute. reflexivity.
  - reflexivity.
  - reflexivity.
  - reflexivity.
  - reflexivity.
Defined.

(** C5 as worded fails: the store handed to the client factory is not
    under the prefix "plugin:". *)
Lemma InitializePjRt_plugin_prefix_not_plugin :
  let r := InitializePjRt Std.names Std.conversions Std.externals
             (RegisterPjRtPlugin "FOO" Std.coordinated_plugin pjrt_plugins_)
             {[ "PJRT_DYNAMIC_PLUGINS" := "1" ]} "FOO" in
  ~ (forall name create_options kv,
       Call_GetCApiClient name create_options kv ∈ trace r ->
       exists store, kv = Some store /\ key_prefix store = "plugin:").
Proof.
  intros r Hclaim.
  destruct (Hclaim "FOO" ∅
              (Some {| kv_client := 2%N; key_prefix := "pjrt:" |}))
    as (store & Hstore & Hprefix).
  - let tr := eval vm_compute in (trace r) in change (trace r) with tr.
    do 4 (apply elem_of_cons; right). apply elem_of_cons; by left.
  - injection Hstore as <-. discriminate.
Qed.

(** * The GPU allocator configuration *)

(** C7.  With the async-allocator and preallocate flags unset: when the
    fraction flag is unset too, [GetGpuAllocatorConfig] returns the
    default-constructed configuration; when the fraction flag is set to
    0.5, the configuration has [memory_fraction = 0.5] and
    [preallocate = true] (and the allocator kind of the default). *)
Theorem GetGpuAllocatorConfig_flags
    (K : env_vars) (C : Conversions) (W : Externals) (environ : Env) :
  environ !! kEnvPjrtAllocatorCudaAsync K = None ->
  environ !! kEnvPjrtAllocatorPreallocate K = None ->
  (environ !! kEnvPjrtAllocatorFraction K = None ->
     GetGpuAllocatorConfig K C W environ = GpuAllocatorConfig_default W) /\
  (environ !! kEnvPjrtAllocatorFraction K = Some "0.5" ->
     EnvToDouble C "0.5" = 0.5%float ->
     memory_fraction (GetGpuAllocatorConfig K C W environ) = 0.5%float /\
     preallocate (GetGpuAllocatorConfig K C W environ) = true /\
     kind (GetGpuAllocatorConfig K C W environ) =
       kind (GpuAllocatorConfig_default W)).
Proof.
  intros Hasync Hpre.
  unfold GetGpuAllocatorConfig, sys_util.GetEnvString, sys_util.GetEnvBool,
    sys_util.GetEnvDouble.
  rewrite Hasync, Hpre. split.
  - by intros ->.
  - intros -> Hhalf. cbn. by rewrite Hhalf.
Qed.

Lemma GetGpuAllocatorConfig_flags_witness :
  GetGpuAllocatorConfig Std.names Std.conversions Std.externals ∅ =
    GpuAllocatorConfig_default Std.externals /\
  let config :=
    GetGpuAllocatorConfig Std.names Std.conversions Std.externals
      {[ "PJRT_ALLOCATOR_FRACTION" := "0.5" ]} in
  memory_fraction config = 0.5%float /\
  preallocate config = true /\
  kind config = kDefault.
Proof.
  split.
  - apply (GetGpuAllocatorConfig_flags
             Std.names Std.conversions Std.externals ∅); reflexivity.
  - apply (GetGpuAllocatorConfig_flags
             Std.names Std.conversions Std.externals
             {[ "PJRT_ALLOCATOR_FRACTION" := "0.5" ]});
      vm_compute; reflexivity.
Defined.

(** * The distributed topology *)

(** C8, as the code has it.  On both paths that coordinate (plugin and
    CUDA): with none of the rank and size names set, the topology is local
    rank 0, global rank 0, local world size 1, global world size 1; with
    "RANK" unset the global rank is the local rank; with "RANK" set its
    value is the global rank, whatever the local rank is.  Hence the
    global rank equals the local rank exactly when "RANK" is unset or its
    value is the local rank. *)
Theorem topology_resolution
    (K : env_vars) (C : Conversions) (environ : Env) :
  let p := plugin_topology K C environ in
  let g := cuda_topology K C environ in
  (no_topology_overrides K environ ->
     p = single_process /\ g = single_process) /\
  (environ !! "RANK" = None ->
     global_process_rank p = local_process_rank p /\
     global_process_rank g = local_process_rank g) /\
  (forall v, environ !! "RANK" = Some v ->
     global_process_rank p = EnvToInt C v /\
     global_process_rank g = EnvToInt C v) /\
  (global_process_rank p = local_process_rank p <->
   environ !! "RANK" = None \/
   exists v, environ !! "RANK" = Some v /\
             EnvToInt C v = local_process_rank p) /\
  (global_process_rank g = local_process_rank g <->
   environ !! "RANK" = None \/
   exists v, environ !! "RANK" = Some v /\
             EnvToInt C v = local_process_rank g).
Proof.
  intros p g. subst p g.
  unfold plugin_topology, cuda_topology, sys_util.GetEnvInt.
  cbn [local_process_rank global_process_rank].
  split_and!.
  - intros (-> & -> & -> & -> & -> & ->). done.
  - intros ->. done.
  - intros v ->. done.
  - destruct (environ !! "RANK") as [v |]; split.
    + intros Heq. right. by exists v.
    + intros [? | (v' & [= <-] & Heq)]; done.
    + by left.
    + done.
  - destruct (environ !! "RANK") as [v |]; split.
    + intros Heq. right. by exists v.
    + intros [? | (v' & [= <-] & Heq)]; done.
    + by left.
    + done.
Qed.

Lemma topology_resolution_witness :
  (plugin_topology Std.names Std.conversions ∅ = single_process /\
   cuda_topology Std.names Std.conversions ∅ = single_process) /\
  (let environ : Env :=
     {[ "WORLD_SIZE" := "4"; "LOCAL_WORLD_SIZE" := "2";
        "PJRT_LOCAL_PROCESS_RANK" := "1" ]} in
   global_process_rank (plugin_topology Std.names Std.conversions environ) = 1
   /\ global_process_rank (cuda_topology Std.names Std.conversions environ)
      = 1) /\
  (let environ : Env :=
     {[ "WORLD_SIZE" := "4"; "LOCAL_WORLD_SIZE" := "2";
        "PJRT_LOCAL_PROCESS_RANK" := "1"; "RANK" := "3" ]} in
   global_process_rank (plugin_topology Std.names Std.conversions environ) = 3
   /\ global_process_rank (cuda_topology Std.names Std.conversions environ)
      = 3).
Proof.
  split; [| split].
  - apply (topology_resolution Std.names Std.conversions ∅).
    by repeat split.
  - intros environ.
    apply (proj1 (proj2 (topology_resolution
                           Std.names Std.conversions environ))).
    vm_compute. reflexivity.
  - intros environ.
    apply (proj1 (proj2 (proj2 (topology_resolution
                                  Std.names Std.conversions environ))) "3").
    vm_compute. reflexivity.
Defined.

(** C8 as worded fails: an override that spells the local rank leaves the
    two ranks equal.  With "RANK" set to 0 and nothing else, both paths
    resolve global rank 0 and local rank 0 although the override is
    supplied; the same happens in the setting of world size 4, local
    world size 2, local rank 1 with "RANK" set to 1. *)
Lemma topology_resolution_override_equal :
  (let environ : Env := {[ "RANK" := "0" ]} in
   let p := plugin_topology Std.names Std.conversions environ in
   let g := cuda_topology Std.names Std.conversions environ in
   ~ (global_process_rank p = local_process_rank p <->
      environ !! "RANK" = None) /\
   ~ (global_process_rank g = local_process_rank g <->
      environ !! "RANK" = None)) /\
  (let environ : Env :=
     {[ "WORLD_SIZE" := "4"; "LOCAL_WORLD_SIZE" := "2";
        "PJRT_LOCAL_PROCESS_RANK" := "1"; "RANK" := "1" ]} in
   let p := plugin_topology Std.names Std.conversions environ in
   let g := cuda_topology Std.names Std.conversions environ in
   ~ (global_process_rank p = local_process_rank p <->
      environ !! "RANK" = None) /\
   ~ (global_process_rank g = local_process_rank g <->
      environ !! "RANK" = None)).
Proof.
  split; intros environ p g; split; intros [Hunset _];
    (assert (Hnone : environ !! "RANK" = None)
       by (apply Hunset; vm_compute; reflexivity));
    vm_compute in Hnone; discriminate Hnone.
Qed.

(** C10.  The two chains for the local rank.  The CUDA path reads the
    backend's own name alone: its local rank is the value of that name
    when it is set and 0 when it is not, and setting "LOCAL_RANK" never
    changes it.  The plugin path reads the backend's own name first, then
    "LOCAL_RANK", then takes 0.  So in an environment that sets
    "LOCAL_RANK" and nothing else the CUDA path resolves local rank 0 and
    the plugin path resolves the value of "LOCAL_RANK". *)
Theorem local_rank_chains_differ
    (K : env_vars) (C : Conversions) (environ : Env) (v : string) :
  kEnvPjRtLocalRank K <> "LOCAL_RANK" ->
  local_process_rank (cuda_topology K C environ) =
    match environ !! kEnvPjRtLocalRank K with
    | Some own => EnvToInt C own
    | None => 0
    end /\
  local_process_rank (plugin_topology K C environ) =
    match environ !! kEnvPjRtLocalRank K with
    | Some own => EnvToInt C own
    | None =>
        match environ !! "LOCAL_RANK" with
        | Some generic => EnvToInt C generic
        | None => 0
        end
    end /\
  local_process_rank (cuda_topology K C (<["LOCAL_RANK" := v]> environ)) =
    local_process_rank (cuda_topology K C environ) /\
  local_process_rank (cuda_topology K C {[ "LOCAL_RANK" := v ]}) = 0 /\
  local_process_rank (plugin_topology K C {[ "LOCAL_RANK" := v ]}) =
    EnvToInt C v.
Proof.
  intros Hname.
  unfold plugin_topology, cuda_topology, sys_util.GetEnvInt.
  cbn [local_process_rank].
  split_and!.
  - reflexivity.
  - reflexivity.
  - by rewrite lookup_insert_ne.
  - by rewrite lookup_singleton_ne.
  - by rewrite lookup_singleton_ne, lookup_singleton_eq.
Qed.

Lemma local_rank_chains_differ_witness :
  (let environ : Env :=
     {[ "PJRT_LOCAL_PROCESS_RANK" := "2"; "LOCAL_RANK" := "3" ]} in
   local_process_rank (cuda_topology Std.names Std.conversions environ) = 2 /\
   local_process_rank (plugin_topology Std.names Std.conversions environ)
     = 2) /\
  local_process_rank
    (cuda_topology Std.names Std.conversions {[ "LOCAL_RANK" := "3" ]}) = 0 /\
  local_process_rank
    (plugin_topology Std.names Std.conversions {[ "LOCAL_RANK" := "3" ]}) = 3.
Proof.
  split.
  - intros environ.
    destruct (local_rank_chains_differ Std.names Std.conversions environ "3")
      as (Hcuda & Hplugin & _); [discriminate |].
    split; [exact Hcuda | exact Hplugin].
  - destruct (local_rank_chains_differ Std.names Std.conversions ∅ "3")
      as (_ & _ & _ & Hcuda & Hplugin); [discriminate |].
    split; [exact Hcuda | exact Hplugin].
Defined.

(** * The plugin table *)

(** C9.  Registering [second] under a name that holds [first] replaces
    the entry: looking the name up afterwards gives [second], and not
    [first] unless they are the same plugin; the other names keep their
    entries.  Looking up a name that has no entry gives the null pointer;
    [GetPjRtPlugin] has no other way to end. *)
Theorem RegisterPjRtPlugin_overwrites
    (plugins : Registry) (name : string) (first second : PjRtPlugin) :
  GetPjRtPlugin plugins name = Some first ->
  GetPjRtPlugin (RegisterPjRtPlugin name second plugins) name = Some second /\
  (first <> second ->
     GetPjRtPlugin (RegisterPjRtPlugin name second plugins) name
       <> Some first) /\
  (forall other, other <> name ->
     GetPjRtPlugin (RegisterPjRtPlugin name second plugins) other =
       GetPjRtPlugin plugins other) /\
  (forall absent, absent ∉ dom plugins ->
     GetPjRtPlugin plugins absent = nullptr).
Proof.
  intros _. unfold GetPjRtPlugin, RegisterPjRtPlugin.
  rewrite lookup_insert_eq. repeat split.
  - intros Hne [= <-]. done.
  - intros other Hne. by rewrite lookup_insert_ne.
  - intros absent Habsent. apply not_elem_of_dom in Habsent.
    by rewrite Habsent.
Qed.

Lemma RegisterPjRtPlugin_overwrites_witness :
  GetPjRtPlugin
    (RegisterPjRtPlugin "LIBRARY" Std.coordinated_plugin pjrt_plugins_)
    "LIBRARY" = Some Std.coordinated_plugin /\
  GetPjRtPlugin pjrt_plugins_ "FOO" = nullptr.
Proof.
  destruct (RegisterPjRtPlugin_overwrites pjrt_plugins_ "LIBRARY"
              LibraryPlugin Std.coordinated_plugin) as (Hnew & _ & _ & Hnone).
  - vm_compute. reflexivity.
  - split; [exact Hnew |]. apply Hnone.
    rewrite not_elem_of_dom. vm_compute. reflexivity.
Defined.

(** * Properties of the whole dispatch *)

(** The ways through [InitializePjRt]: to show a property of every run it
    is enough to show it of each path. *)
Lemma InitializePjRt_cases
    (K : env_vars) (C : Conversions) (W : Externals)
    (plugins : Registry) (environ : Env) (device_type : string)
    (P : Run (PjRtClient * unique_ptr XlaCoordinator) -> Prop) :
  let flag :=
    sys_util.GetEnvBool C environ (kEnvPjrtDynamicPlugins K) false in
  (forall plugin,
     flag = true -> device_type <> "CPU" ->
     GetPjRtPlugin plugins device_type = Some plugin ->
     P (plugin_client K C W environ plugin device_type ≫= finish)) ->
  (flag = true -> device_type <> "CPU" ->
   GetPjRtPlugin plugins device_type = nullptr -> P ([], CheckFailed)) ->
  (device_type = "CPU" -> P (cpu_client K C W environ ≫= finish)) ->
  (flag = false -> device_type = "TPU" ->
   P (tpu_client K W environ ≫= finish)) ->
  (flag = false -> device_type = "TPU_LEGACY" ->
   P ([], Failed (tpu_legacy_error W))) ->
  (flag = false -> device_type = "CUDA" ->
   P (cuda_client K C W environ ≫= finish)) ->
  (flag = false -> device_type = "XPU" ->
   P (xpu_client K W environ ≫= finish)) ->
  (flag = false -> device_type = "NEURON" ->
   P (neuron_client K W environ ≫= finish)) ->
  (flag = false ->
   device_type ∉ ["CPU"; "TPU"; "TPU_LEGACY"; "CUDA"; "XPU"; "NEURON"] ->
   P ([], Failed (unknown_device_error K W device_type))) ->
  P (InitializePjRt K C W plugins environ device_type).
Proof.
  intros flag Hplugin Hnone Hcpu Htpu Hlegacy Hcuda Hxpu Hneuron Hunknown.
  destruct (String.eqb_spec device_type "CPU") as [-> | Hne].
  { destruct flag eqn:Hflag; subst flag.
    - unfold InitializePjRt. rewrite Hflag. by apply Hcpu.
    - rewrite InitializePjRt_static by done. by apply Hcpu. }
  destruct flag eqn:Hflag; subst flag.
  - rewrite InitializePjRt_dynamic by done.
    destruct (plugins !! device_type) as [plugin |] eqn:Hlookup.
    + apply Hplugin; try done. unfold GetPjRtPlugin. by rewrite Hlookup.
    + apply Hnone; try done. unfold GetPjRtPlugin. by rewrite Hlookup.
  - rewrite InitializePjRt_static by done.
    destruct (String.eqb_spec device_type "CPU"); [done |].
    destruct (String.eqb_spec device_type "TPU") as [-> | ?]; [by apply Htpu |].
    destruct (String.eqb_spec device_type "TPU_LEGACY") as [-> | ?];
      [by apply Hlegacy |].
    destruct (String.eqb_spec device_type "CUDA") as [-> | ?];
      [by apply Hcuda |].
    destruct (String.eqb_spec device_type "XPU") as [-> | ?]; [by apply Hxpu |].
    destruct (String.eqb_spec device_type "NEURON") as [-> | ?];
      [by apply Hneuron |].
    apply Hunknown; [done |]. intros Hin.
    repeat (apply elem_of_cons in Hin as [Hin | Hin]; [done |]).
    by apply elem_of_nil in Hin.
Qed.

(** Finds an element in a list that is written out. *)
Ltac in_list := repeat (apply elem_of_cons; first [by left | right]).

(** Runs a path to its ends: one goal for each way the collaborators can
    answer. *)
Ltac run_paths :=
  unfold plugin_client, cpu_client, tpu_client, cuda_client, xpu_client,
    neuron_client, create_coordinator, XLA_ASSIGN_OR_RETURN,
    XLA_RETURN_IF_ERROR, emit, finish, ABSL_CHECK;
  repeat
    (cbn -[cuda_options cuda_topology plugin_topology Z.ltb AsciiStrToLower
           AsciiStrToUpper cuda_deprecation sys_util.GetEnvString
           sys_util.GetEnvInt sys_util.GetEnvBool];
     match goal with
     | |- context [match ?r with IsOk _ => _ | NotOk _ => _ end] =>
         destruct r as [? | ?] eqn:?
     | |- context [if ?b then _ else _] => destruct b eqn:?
     | |- context [match ?o with Some _ => _ | None => _ end] =>
         destruct o as [? |] eqn:?
     end);
  cbn -[cuda_options cuda_topology plugin_topology Z.ltb AsciiStrToLower
        AsciiStrToUpper cuda_deprecation sys_util.GetEnvString
        sys_util.GetEnvInt sys_util.GetEnvBool].

(** X1.  Whatever the path, a run that returns holds a coordinator in
    its result exactly when it created one. *)
Theorem InitializePjRt_coordinator_slot
    (K : env_vars) (C : Conversions) (W : Externals)
    (plugins : Registry) (environ : Env) (device_type : string)
    (client : PjRtClient) (coordinator : unique_ptr XlaCoordinator) :
  let r := InitializePjRt K C W plugins environ device_type in
  outcome r = Returned (client, coordinator) ->
  coordinator_created (trace r) = true <-> coordinator <> nullptr.
Proof.
  intros r. subst r.
  apply (InitializePjRt_cases K C W plugins environ device_type
           (fun r => outcome r = Returned (client, coordinator) ->
              coordinator_created (trace r) = true <->
              coordinator <> nullptr));
    intros; generalize dependent coordinator.
  all: run_paths.
  all: try discriminate.
  all: intros ? [= <- <-]; split; intros; done.
Qed.

Lemma InitializePjRt_coordinator_slot_witness :
  coordinator_created
    (trace (InitializePjRt Std.names Std.conversions Std.externals
              pjrt_plugins_ {[ "WORLD_SIZE" := "2" ]} "CUDA")) = true <->
  Some 1%N <> nullptr.
Proof.
  apply (InitializePjRt_coordinator_slot
           Std.names Std.conversions Std.externals pjrt_plugins_
           {[ "WORLD_SIZE" := "2" ]} "CUDA" 4%N (Some 1%N)).
  vm_compute. reflexivity.
Defined.

(** X2.  No run builds a client twice: every trace has at most one call to
    a client factory, and a run that returns has exactly one. *)
Theorem InitializePjRt_one_client_factory_call
    (K : env_vars) (C : Conversions) (W : Externals)
    (plugins : Registry) (environ : Env) (device_type : string) :
  let r := InitializePjRt K C W plugins environ device_type in
  (client_factory_calls (trace r) <= 1)%nat /\
  (forall result, outcome r = Returned result ->
     client_factory_calls (trace r) = 1%nat).
Proof.
  intros r. subst r.
  apply (InitializePjRt_cases K C W plugins environ device_type
           (fun r =>
              (client_factory_calls (trace r) <= 1)%nat /\
              (forall result, outcome r = Returned result ->
                 client_factory_calls (trace r) = 1%nat)));
    intros.
  all: run_paths.
  all: split; [unfold client_factory_calls; cbn; lia |].
  all: intros result Hret; try discriminate Hret; reflexivity.
Qed.

(** X3.  With the dynamic-plugins flag off, only the CUDA path can create a
    coordinator: for every other device type no coordinator is created. *)
Theorem InitializePjRt_static_never_coordinates
    (K : env_vars) (C : Conversions) (W : Externals)
    (plugins : Registry) (environ : Env) (device_type : string) :
  sys_util.GetEnvBool C environ (kEnvPjrtDynamicPlugins K) false = false ->
  device_type <> "CUDA" ->
  coordinator_created
    (trace (InitializePjRt K C W plugins environ device_type)) = false.
Proof.
  intros Hflag Hcuda.
  apply (InitializePjRt_cases K C W plugins environ device_type
           (fun r => coordinator_created (trace r) = false));
    cbv zeta; intros; try congruence.
  all: run_paths; reflexivity.
Qed.

Lemma InitializePjRt_static_never_coordinates_witness :
  coordinator_created
    (trace (InitializePjRt Std.names Std.conversions Std.externals
              pjrt_plugins_ {[ "WORLD_SIZE" := "8" ]} "TPU")) = false.
Proof.
  apply InitializePjRt_static_never_coordinates.
  - vm_compute. reflexivity.
  - discriminate.
Defined.

(** X4.  The deprecation warning is written exactly on the built-in CUDA
    path: the trace holds a [TORCH_WARN] if and only if the
    dynamic-plugins flag is off and the device type is "CUDA". *)
Theorem InitializePjRt_warns_iff_cuda
    (K : env_vars) (C : Conversions) (W : Externals)
    (plugins : Registry) (environ : Env) (device_type : string) :
  existsb is_warning
    (trace (InitializePjRt K C W plugins environ device_type)) = true <->
  sys_util.GetEnvBool C environ (kEnvPjrtDynamicPlugins K) false = false /\
  device_type = "CUDA".
Proof.
  apply (InitializePjRt_cases K C W plugins environ device_type
           (fun r => existsb is_warning (trace r) = true <-> _ /\ _));
    cbv zeta; intros.
  all: run_paths.
  all: split; [try discriminate | intros [? ?]; try congruence]; try done.
  all: exfalso; match goal with
       | H : _ ∉ _ |- _ => apply H; subst;
           in_list
       end.
Qed.

(** X5.  When the client factories never answer with a null client, the
    non-null-client check fails in one situation only: the
    dynamic-plugins flag is on, the device type is not "CPU", and the
    plugin table has no entry for it. *)
Theorem InitializePjRt_check_failed_iff
    (K : env_vars) (C : Conversions) (W : Externals)
    (plugins : Registry) (environ : Env) (device_type : string) :
  (forall name create_options kv,
     GetCApiClient W name create_options kv <> IsOk nullptr) ->
  (forall async cpu_device_count,
     GetPjRtCpuClient W async cpu_device_count <> IsOk nullptr) ->
  (forall options, GetStreamExecutorGpuClient W options <> IsOk nullptr) ->
  outcome (InitializePjRt K C W plugins environ device_type) = CheckFailed <->
  sys_util.GetEnvBool C environ (kEnvPjrtDynamicPlugins K) false = true /\
  device_type <> "CPU" /\
  GetPjRtPlugin plugins device_type = nullptr.
Proof.
  intros Hcapi Hcpu Hgpu.
  apply (InitializePjRt_cases K C W plugins environ device_type
           (fun r => outcome r = CheckFailed <-> _ /\ _ /\ _));
    cbv zeta; intros.
  all: run_paths.
  all: try (exfalso;
            match goal with
            | H : GetCApiClient _ _ _ _ = IsOk None |- _ =>
                exact (Hcapi _ _ _ H)
            | H : GetPjRtCpuClient _ _ _ = IsOk None |- _ =>
                exact (Hcpu _ _ H)
            | H : GetStreamExecutorGpuClient _ _ = IsOk None |- _ =>
                exact (Hgpu _ H)
            end).
  all: split; [try discriminate; done | intros (? & ? & ?)];
       unfold nullptr in *; congruence.
Qed.

Lemma InitializePjRt_check_failed_iff_witness :
  outcome (InitializePjRt Std.names Std.conversions Std.externals
             pjrt_plugins_ {[ "PJRT_DYNAMIC_PLUGINS" := "1" ]} "CUDA")
    = CheckFailed <->
  sys_util.GetEnvBool Std.conversions {[ "PJRT_DYNAMIC_PLUGINS" := "1" ]}
    "PJRT_DYNAMIC_PLUGINS" false = true /\
  "CUDA" <> "CPU" /\
  GetPjRtPlugin pjrt_plugins_ "CUDA" = nullptr.
Proof.
  apply (InitializePjRt_check_failed_iff
           Std.names Std.conversions Std.externals); discriminate.
Defined.



(** X7.  Registering a plugin changes what [InitializePjRt] does for a
    device type only when the dynamic-plugins flag is on, the device type
    is not "CPU", and the plugin is registered under that very name. *)
Theorem InitializePjRt_registration_frame
    (K : env_vars) (C : Conversions) (W : Externals)
    (plugins : Registry) (environ : Env) (device_type name : string)
    (plugin : PjRtPlugin) :
  sys_util.GetEnvBool C environ (kEnvPjrtDynamicPlugins K) false = false \/
  device_type = "CPU" \/ name <> device_type ->
  InitializePjRt K C W (RegisterPjRtPlugin name plugin plugins) environ
    device_type =
  InitializePjRt K C W plugins environ device_type.
Proof.
  intros Hframe.
  destruct (sys_util.GetEnvBool C environ (kEnvPjrtDynamicPlugins K) false)
    eqn:Hflag.
  - destruct (String.eqb_spec device_type "CPU") as [-> | Hcpu].
    + unfold InitializePjRt. by rewrite Hflag.
    + destruct Hframe as [? | [? | Hname]]; [done | done |].
      rewrite !InitializePjRt_dynamic by done.
      unfold RegisterPjRtPlugin. by rewrite lookup_insert_ne.
  - by rewrite !InitializePjRt_static.
Qed.

Lemma InitializePjRt_registration_frame_witness :
  InitializePjRt Std.names Std.conversions Std.externals
    (RegisterPjRtPlugin "FOO" Std.coordinated_plugin pjrt_plugins_)
    {[ "PJRT_DYNAMIC_PLUGINS" := "1" ]} "LIBRARY" =
  InitializePjRt Std.names Std.conversions Std.externals pjrt_plugins_
    {[ "PJRT_DYNAMIC_PLUGINS" := "1" ]} "LIBRARY".
Proof.
  apply InitializePjRt_registration_frame.
  right. right. discriminate.
Defined.

(** X8.  "CPU" always takes the built-in CPU path, whatever the flag and
    the plugin table say: the only call is the CPU client factory, with
    the async flag (default true) and the device count (default 1) read
    from the environment; the result has no coordinator, a null client
    fails the check, and a status is handed on. *)
Theorem InitializePjRt_CPU
    (K : env_vars) (C : Conversions) (W : Externals)
    (plugins : Registry) (environ : Env) :
  let async :=
    sys_util.GetEnvBool C environ (kEnvPjrtAsyncCpuClient K) true in
  let cpu_device_count := sys_util.GetEnvInt C environ (kEnvNumCpu K) 1 in
  InitializePjRt K C W plugins environ "CPU" =
    ([Call_GetPjRtCpuClient async cpu_device_count],
     match GetPjRtCpuClient W async cpu_device_count with
     | IsOk (Some client) => Returned (client, nullptr)
     | IsOk None => CheckFailed
     | NotOk s => Failed (XLA_PROPAGATE W s)
     end).
Proof.
  intros async cpu_device_count.
  apply (InitializePjRt_cases K C W plugins environ "CPU"
           (fun r => r = _));
    cbv zeta; intros; try done.
  - unfold cpu_client. fold async cpu_device_count.
    by destruct (GetPjRtCpuClient W async cpu_device_count) as [[c |] | s].
  - exfalso. match goal with H : _ ∉ _ |- _ => apply H end. in_list.
Qed.

(** * More about the CUDA path *)

(** X9.  On the CUDA path with the flag off, the options given to the GPU
    client factory carry the global rank as node id, the global world size
    as number of nodes, the platform name "gpu", staged host-to-device
    transfers and the allocator configuration of [GetGpuAllocatorConfig];
    the key-value store is null for a world size of at most 1 (the size is
    not checked to be positive) and is a store under the prefix "gpu:" for
    a larger one. *)
Theorem InitializePjRt_cuda_options
    (K : env_vars) (C : Conversions) (W : Externals)
    (plugins : Registry) (environ : Env) (options : GpuClientOptions) :
  sys_util.GetEnvBool C environ (kEnvPjrtDynamicPlugins K) false = false ->
  Call_GetStreamExecutorGpuClient options ∈
    trace (InitializePjRt K C W plugins environ "CUDA") ->
  let t := cuda_topology K C environ in
  node_id options = global_process_rank t /\
  num_nodes options = global_world_size t /\
  platform_name options = "gpu" /\
  should_stage_host_to_device_transfers options = true /\
  allocator_config options = GetGpuAllocatorConfig K C W environ /\
  (global_world_size t <= 1 -> kv_store options = nullptr) /\
  (1 < global_world_size t ->
     exists store,
       kv_store options = Some store /\ key_prefix store = "gpu:").
Proof.
  intros Hflag Hin t.
  rewrite InitializePjRt_cuda, trace_bind_finish in Hin by done.
  destruct (Z_le_gt_dec (global_world_size t) 1) as [Hle | Hgt].
  - rewrite cuda_client_alone in Hin by done. cbv zeta in Hin.
    cbn [trace fst] in Hin.
    apply elem_of_cons in Hin as [Hin | Hin]; [discriminate |].
    apply list_elem_of_singleton in Hin. injection Hin as ->.
    split_and!; try done. intros. subst t. lia.
  - rewrite cuda_client_distributed in Hin by (fold t; lia).
    cbv zeta in Hin.
    destruct (XlaCoordinator_Create W _ _ _ _) as [c | s];
      cbn [trace fst] in Hin.
    + apply elem_of_cons in Hin as [Hin | Hin]; [discriminate |].
      apply elem_of_cons in Hin as [Hin | Hin]; [discriminate |].
      apply list_elem_of_singleton in Hin. injection Hin as ->.
      split_and!; try done.
      intros _. by eexists.
    + apply elem_of_cons in Hin as [Hin | Hin]; [discriminate |].
      apply list_elem_of_singleton in Hin. discriminate.
Qed.

Lemma InitializePjRt_cuda_options_witness :
  let environ : Env := {[ "WORLD_SIZE" := "0"; "RANK" := "5" ]} in
  let options :=
    cuda_options Std.names Std.conversions Std.externals environ
      (cuda_topology Std.names Std.conversions environ) nullptr in
  node_id options = 5 /\
  num_nodes options = 0 /\
  platform_name options = "gpu" /\
  should_stage_host_to_device_transfers options = true /\
  allocator_config options =
    GetGpuAllocatorConfig Std.names Std.conversions Std.externals environ /\
  (0 <= 1 -> kv_store options = nullptr) /\
  (1 < 0 ->
     exists store,
       kv_store options = Some store /\ key_prefix store = "gpu:").
Proof.
  intros environ options.
  apply (InitializePjRt_cuda_options
           Std.names Std.conversions Std.externals pjrt_plugins_ environ
           options).
  - vm_compute. reflexivity.
  - let tr := eval vm_compute in
      (trace (InitializePjRt Std.names Std.conversions Std.externals
                pjrt_plugins_ environ "CUDA")) in
    change (Call_GetStreamExecutorGpuClient options ∈ tr).
    apply elem_of_cons; right. apply elem_of_cons; left.
    vm_compute. reflexivity.
Defined.

(** X10.  When the coordinator cannot be created on the CUDA path, the run
    returns that status straight away: the trace is the warning and the
    creation attempt, and the GPU client factory is never called. *)
Theorem InitializePjRt_cuda_coordinator_failure
    (K : env_vars) (C : Conversions) (W : Externals)
    (plugins : Registry) (environ : Env) (s : Status) :
  let t := cuda_topology K C environ in
  let master_addr :=
    sys_util.GetEnvString environ "MASTER_ADDR" "localhost" in
  let port :=
    sys_util.GetEnvString environ "XLA_COORDINATOR_PORT"
      (kDefaultCoordinatorPort K) in
  sys_util.GetEnvBool C environ (kEnvPjrtDynamicPlugins K) false = false ->
  1 < global_world_size t ->
  XlaCoordinator_Create W (global_process_rank t) (global_world_size t)
    master_addr port = NotOk s ->
  InitializePjRt K C W plugins environ "CUDA" =
    ([TORCH_WARN cuda_deprecation;
      Call_XlaCoordinator_Create (global_process_rank t)
        (global_world_size t) master_addr port],
     Failed (XLA_PROPAGATE W s)).
Proof.
  intros t master_addr port Hflag Hsize Hcreate.
  rewrite InitializePjRt_cuda by done.
  rewrite cuda_client_distributed by done. cbv zeta.
  fold t master_addr port. by rewrite Hcreate.
Qed.

Lemma InitializePjRt_cuda_coordinator_failure_witness :
  InitializePjRt Std.names Std.conversions Faulty.externals pjrt_plugins_
    {[ "WORLD_SIZE" := "2"; "MASTER_ADDR" := "10.0.0.1" ]} "CUDA" =
    ([TORCH_WARN cuda_deprecation;
      Call_XlaCoordinator_Create 0 2 "10.0.0.1" "8547"],
     Failed Faulty.unreachable).
Proof.
  etransitivity.
  - apply (InitializePjRt_cuda_coordinator_failure
             Std.names Std.conversions Faulty.externals pjrt_plugins_
             {[ "WORLD_SIZE" := "2"; "MASTER_ADDR" := "10.0.0.1" ]}
             Faulty.unreachable).
    + vm_compute. reflexivity.
    + vm_compute. reflexivity.
    + reflexivity.
  - vm_compute. reflexivity.
Defined.

(** * More about the plugin path *)

(** X11.  On the plugin path, a plugin that does not ask for a coordinator
    gets none: no coordinator is created, every call that builds the
    client has the upper-cased device type, the plugin's own options and a
    null key-value store, and a run that returns has an empty coordinator
    slot.  That call is made as soon as the library, loaded under the
    lower-cased device type from the plugin's library path, and the
    plugin's initialisation have succeeded; and the run returns a client
    exactly when the call answers with it. *)
Theorem InitializePjRt_plugin_uncoordinated
    (K : env_vars) (C : Conversions) (W : Externals)
    (plugins : Registry) (environ : Env) (device_type : string)
    (plugin : PjRtPlugin) :
  sys_util.GetEnvBool C environ (kEnvPjrtDynamicPlugins K) false = true ->
  device_type <> "CPU" ->
  GetPjRtPlugin plugins device_type = Some plugin ->
  requires_xla_coordinator plugin environ = false ->
  let r := InitializePjRt K C W plugins environ device_type in
  let loaded :=
    exists c_api,
      LoadPjrtPlugin W (AsciiStrToLower device_type)
        (library_path plugin environ) = IsOk c_api in
  let initialized := InitializePjrtPlugin W device_type = IsOk tt in
  coordinator_created (trace r) = false /\
  (forall name create_options kv,
     Call_GetCApiClient name create_options kv ∈ trace r ->
     name = AsciiStrToUpper device_type /\
     create_options = client_create_options plugin environ /\
     kv = nullptr) /\
  (forall client coordinator,
     outcome r = Returned (client, coordinator) -> coordinator = nullptr) /\
  (loaded -> initialized ->
   Call_GetCApiClient (AsciiStrToUpper device_type)
     (client_create_options plugin environ) nullptr ∈ trace r) /\
  (forall client coordinator,
     outcome r = Returned (client, coordinator) <->
     loaded /\ initialized /\
     GetCApiClient W (AsciiStrToUpper device_type)
       (client_create_options plugin environ) nullptr =
       IsOk (Some client) /\
     coordinator = nullptr).
Proof.
  intros Hflag Hcpu Hplugin Hreq r loaded initialized.
  subst r loaded initialized.
  rewrite InitializePjRt_dynamic by done.
  unfold GetPjRtPlugin in Hplugin.
  destruct (plugins !! device_type) as [plugin' |]; [| discriminate].
  injection Hplugin as ->.
  unfold plugin_client. rewrite Hreq. run_paths.
  all: repeat match goal with u : unit |- _ => destruct u end.
  all: split_and!; try done.
  all: try (intros name create_options kv Hin;
            repeat (apply elem_of_cons in Hin as [Hin | Hin];
                      [first [discriminate | by injection Hin as -> -> ->]
                      |]);
            by apply elem_of_nil in Hin).
  all: try (by intros client coordinator [= <- <-]).
  all: try (intros [c_api Hload] Hinit; first [congruence | in_list]).
  all: intros client coordinator; split;
         [ try discriminate; intros [= <- <-]; split_and!; eauto
         | intros ([c_api Hload] & Hinit & Hclient & ->); congruence ].
Qed.

Lemma InitializePjRt_plugin_uncoordinated_witness :
  let r := InitializePjRt Std.names Std.conversions Std.externals
             pjrt_plugins_
             {[ "PJRT_DYNAMIC_PLUGINS" := "1"; "WORLD_SIZE" := "4" ]}
             "LIBRARY" in
  coordinator_created (trace r) = false /\
  Call_GetCApiClient "LIBRARY" ∅ nullptr ∈ trace r /\
  outcome r = Returned (4%N, nullptr).
Proof.
  intros r.
  destruct (InitializePjRt_plugin_uncoordinated
              Std.names Std.conversions Std.externals pjrt_plugins_
              {[ "PJRT_DYNAMIC_PLUGINS" := "1"; "WORLD_SIZE" := "4" ]}
              "LIBRARY" LibraryPlugin) as (Hnone & _ & _ & Hcall & Hret).
  - vm_compute. reflexivity.
  - discriminate.
  - vm_compute. reflexivity.
  - reflexivity.
  - split_and!.
    + exact Hnone.
    + apply Hcall; [by exists 3%N | reflexivity].
    + apply Hret.
      split_and!; [by exists 3%N | reflexivity | reflexivity | reflexivity].
Defined.

(** X12.  The placeholder plugin of the table at start-up.  With the
    dynamic-plugins flag on, "LIBRARY" returns a client exactly when the
    library at PJRT_LIBRARY_PATH (the empty path when unset) loads under
    the name "library", the plugin initialises under the name "LIBRARY",
    and the client factory, given no options and no key-value store,
    answers with that client; the result never has a coordinator. *)
Theorem InitializePjRt_LIBRARY_at_startup
    (K : env_vars) (C : Conversions) (W : Externals) (environ : Env)
    (client : PjRtClient) (coordinator : unique_ptr XlaCoordinator) :
  sys_util.GetEnvBool C environ (kEnvPjrtDynamicPlugins K) false = true ->
  outcome (InitializePjRt K C W pjrt_plugins_ environ "LIBRARY") =
    Returned (client, coordinator) <->
  (exists c_api,
     LoadPjrtPlugin W "library"
       (sys_util.GetEnvString environ "PJRT_LIBRARY_PATH" EmptyString) =
       IsOk c_api) /\
  InitializePjrtPlugin W "LIBRARY" = IsOk tt /\
  GetCApiClient W "LIBRARY" ∅ nullptr = IsOk (Some client) /\
  coordinator = nullptr.
Proof.
  intros Hflag.
  rewrite InitializePjRt_dynamic by done.
  change (pjrt_plugins_ !! "LIBRARY") with (Some LibraryPlugin).
  unfold plugin_client.
  change (requires_xla_coordinator LibraryPlugin environ) with false.
  change (AsciiStrToLower "LIBRARY") with "library".
  change (AsciiStrToUpper "LIBRARY") with "LIBRARY".
  change (library_path LibraryPlugin environ)
    with (sys_util.GetEnvString environ "PJRT_LIBRARY_PATH" EmptyString).
  change (client_create_options LibraryPlugin environ)
    with (∅ : gmap string PjRtValueType).
  run_paths.
  all: repeat match goal with u : unit |- _ => destruct u end.
  all: split;
         [ try discriminate; intros [= <- <-]; split_and!; eauto
         | intros ([c_api Hload] & Hinit & Hclient & ->); congruence ].
Qed.

Lemma InitializePjRt_LIBRARY_at_startup_witness :
  outcome (InitializePjRt Std.names Std.conversions Std.externals
             pjrt_plugins_
             {[ "PJRT_DYNAMIC_PLUGINS" := "true";
                "PJRT_LIBRARY_PATH" := "/opt/libpjrt.so" ]} "LIBRARY") =
    Returned (4%N, nullptr).
Proof.
  apply (InitializePjRt_LIBRARY_at_startup
           Std.names Std.conversions Std.externals).
  - vm_compute. reflexivity.
  - split_and!; [by exists 3%N | reflexivity | reflexivity | reflexivity].
Defined.

(** * More about the allocator configuration *)

(** X13.  A flag set to the empty text counts as unset: when each of the
    three allocator flags is absent or empty, the default-constructed
    configuration is returned and no flag is converted. *)
Theorem GetGpuAllocatorConfig_empty_is_unset
    (K : env_vars) (C : Conversions) (W : Externals) (environ : Env) :
  (forall name,
     name ∈ [kEnvPjrtAllocatorCudaAsync K; kEnvPjrtAllocatorPreallocate K;
             kEnvPjrtAllocatorFraction K] ->
     environ !! name = None \/ environ !! name = Some EmptyString) ->
  GetGpuAllocatorConfig K C W environ = GpuAllocatorConfig_default W.
Proof.
  intros Hunset.
  assert (Hempty : forall name,
            name ∈ [kEnvPjrtAllocatorCudaAsync K;
                    kEnvPjrtAllocatorPreallocate K;
                    kEnvPjrtAllocatorFraction K] ->
            empty (sys_util.GetEnvString environ name EmptyString) = true).
  { intros name Hin. unfold sys_util.GetEnvString.
    by destruct (Hunset name Hin) as [-> | ->]. }
  unfold GetGpuAllocatorConfig.
  by rewrite !Hempty by in_list.
Qed.

Lemma GetGpuAllocatorConfig_empty_is_unset_witness :
  GetGpuAllocatorConfig Std.names Std.conversions Std.externals
    {[ "PJRT_ALLOCATOR_FRACTION" := EmptyString;
       "PJRT_ALLOCATOR_PREALLOCATE" := EmptyString ]} =
  GpuAllocatorConfig_default Std.externals.
Proof.
  apply GetGpuAllocatorConfig_empty_is_unset.
  intros name Hin.
  repeat (apply elem_of_cons in Hin as [-> | Hin];
            [first [by left | by right] |]).
  by apply elem_of_nil in Hin.
Defined.

(** X14.  As soon as one flag is set to a text that is not empty, the
    preallocate flag and the memory fraction no longer come from the
    default object.  With only the async flag set: the kind is
    [kCudaAsync] when the flag reads true and the default's kind
    otherwise, preallocate is true and the memory fraction is 0.75. *)
Theorem GetGpuAllocatorConfig_async_only
    (K : env_vars) (C : Conversions) (W : Externals) (environ : Env)
    (v : string) :
  environ !! kEnvPjrtAllocatorCudaAsync K = Some v ->
  v <> EmptyString ->
  environ !! kEnvPjrtAllocatorPreallocate K = None ->
  environ !! kEnvPjrtAllocatorFraction K = None ->
  GetGpuAllocatorConfig K C W environ =
    {| kind := if EnvToBool C v then kCudaAsync
               else kind (GpuAllocatorConfig_default W);
       memory_fraction := 0.75%float;
       preallocate := true |}.
Proof.
  intros Hasync Hv Hpre Hfrac.
  unfold GetGpuAllocatorConfig, sys_util.GetEnvString, sys_util.GetEnvBool,
    sys_util.GetEnvDouble.
  rewrite Hasync, Hpre, Hfrac.
  by destruct v.
Qed.

Lemma GetGpuAllocatorConfig_async_only_witness :
  GetGpuAllocatorConfig Std.names Std.conversions Std.externals
    {[ "PJRT_ALLOCATOR_CUDA_ASYNC" := "1" ]} =
  {| kind := kCudaAsync; memory_fraction := 0.75%float;
     preallocate := true |}.
Proof.
  apply (GetGpuAllocatorConfig_async_only
           Std.names Std.conversions Std.externals
           {[ "PJRT_ALLOCATOR_CUDA_ASYNC" := "1" ]} "1").
  - reflexivity.
  - discriminate.
  - reflexivity.
  - reflexivity.
Defined.

(** * More about the plugin table *)

(** X15.  Registration only adds or replaces: the names of the table after
    [RegisterPjRtPlugin] are the names before and the new one, a second
    registration under one name makes the first unobservable, and
    registrations under different names can be made in either order. *)
Theorem RegisterPjRtPlugin_table
    (plugins : Registry) (name other : string) (p q : PjRtPlugin) :
  dom (RegisterPjRtPlugin name p plugins) = {[ name ]} ∪ dom plugins /\
  RegisterPjRtPlugin name q (RegisterPjRtPlugin name p plugins) =
    RegisterPjRtPlugin name q plugins /\
  (name <> other ->
   RegisterPjRtPlugin name p (RegisterPjRtPlugin other q plugins) =
     RegisterPjRtPlugin other q (RegisterPjRtPlugin name p plugins)).
Proof.
  unfold RegisterPjRtPlugin. split_and!.
  - apply dom_insert_L.
  - apply insert_insert_eq.
  - intros Hne. by apply insert_insert_ne.
Qed.

(** * More about the fixed names *)

(** X16.  With the dynamic-plugins flag off, a device type that is not
    one of the six fixed names -- compared as written, so "cpu" is not
    "CPU" -- makes no call and returns the InvalidArgument status whose
    text is "Unknown ", the name of the device variable, ": '", the device
    type and "'". *)
Theorem InitializePjRt_unknown_message
    (K : env_vars) (C : Conversions) (W : Externals)
    (plugins : Registry) (environ : Env) (device_type : string) :
  sys_util.GetEnvBool C environ (kEnvPjrtDynamicPlugins K) false = false ->
  device_type ∉ ["CPU"; "TPU"; "TPU_LEGACY"; "CUDA"; "XPU"; "NEURON"] ->
  InitializePjRt K C W plugins environ device_type =
    ([], Failed (XLA_ERROR_WITH_LOCATION W
                   (InvalidArgumentError
                      ("Unknown " ++ kEnvPjRtDevice K ++ ": '" ++
                       device_type ++ "'")))).
Proof.
  intros Hflag Hnot.
  apply (InitializePjRt_cases K C W plugins environ device_type
           (fun r => r = _));
    cbv zeta; intros; subst; try congruence;
    try solve [exfalso; apply Hnot; in_list].
  unfold unknown_device_error, StrCat. cbn [fold_right].
  by rewrite append_empty_r.
Qed.

Lemma InitializePjRt_unknown_message_witness :
  InitializePjRt Std.names Std.conversions Std.externals pjrt_plugins_ ∅
    "cpu" =
    ([], Failed (InvalidArgumentError "Unknown PJRT_DEVICE: 'cpu'")).
Proof.
  apply (InitializePjRt_unknown_message
           Std.names Std.conversions Std.externals pjrt_plugins_ ∅ "cpu").
  - reflexivity.
  - intros Hin.
    repeat (apply elem_of_cons in Hin as [Hin | Hin]; [discriminate |]).
    by apply elem_of_nil in Hin.
Defined.



(** * The paths that load a library by a fixed name *)

(** X18.  The TPU path, flag off.  The library is loaded under the name
    "tpu" from the first of: the TPU library path variable, the inferred
    TPU library path variable, "libtpu.so".  The run returns a client
    exactly when that load succeeds, the plugin initialises under "tpu"
    and the client factory, given "TPU", no options and no key-value
    store, answers with that client; the result has no coordinator. *)
Theorem InitializePjRt_TPU_returns_iff
    (K : env_vars) (C : Conversions) (W : Externals)
    (plugins : Registry) (environ : Env)
    (client : PjRtClient) (coordinator : unique_ptr XlaCoordinator) :
  sys_util.GetEnvBool C environ (kEnvPjrtDynamicPlugins K) false = false ->
  let tpu_library_path :=
    match environ !! kEnvTpuLibraryPath K with
    | Some path => path
    | None =>
        match environ !! kEnvInferredTpuLibraryPath K with
        | Some path => path
        | None => "libtpu.so"
        end
    end in
  outcome (InitializePjRt K C W plugins environ "TPU") =
    Returned (client, coordinator) <->
  (exists c_api, LoadPjrtPlugin W "tpu" tpu_library_path = IsOk c_api) /\
  InitializePjrtPlugin W "tpu" = IsOk tt /\
  GetCApiClient W "TPU" ∅ nullptr = IsOk (Some client) /\
  coordinator = nullptr.
Proof.
  intros Hflag tpu_library_path.
  rewrite InitializePjRt_static by done. cbn [String.eqb Ascii.eqb Bool.eqb].
  unfold tpu_client.
  change (sys_util.GetEnvString environ (kEnvTpuLibraryPath K)
            (sys_util.GetEnvString environ (kEnvInferredTpuLibraryPath K)
               "libtpu.so")) with tpu_library_path.
  clearbody tpu_library_path.
  run_paths.
  all: repeat match goal with u : unit |- _ => destruct u end.
  all: split;
         [ try discriminate; intros [= <- <-]; split_and!; eauto
         | intros ([c_api Hload] & Hinit & Hclient & ->); congruence ].
Qed.

Lemma InitializePjRt_TPU_returns_iff_witness :
  outcome (InitializePjRt Std.names Std.conversions Std.externals
             pjrt_plugins_
             {[ "PTXLA_TPU_LIBRARY_PATH" := "/usr/lib/libtpu.so" ]} "TPU") =
    Returned (4%N, nullptr).
Proof.
  apply (InitializePjRt_TPU_returns_iff
           Std.names Std.conversions Std.externals).
  - reflexivity.
  - split_and!; [by exists 3%N | reflexivity | reflexivity | reflexivity].
Defined.

(** X19.  The XPU and NEURON paths, flag off.  Each loads its library (as
    "xpu" from the XPU path variable, default "libxpu.so"; as "NEURON"
    from the NEURON path variable, default "libneuronpjrt.so") and then
    builds the client; unlike the TPU path, neither runs the plugin's
    initialisation nor registers the profiler.  The run returns a client
    exactly when the load succeeds and the factory answers with it. *)
Theorem InitializePjRt_XPU_NEURON
    (K : env_vars) (C : Conversions) (W : Externals)
    (plugins : Registry) (environ : Env)
    (client : PjRtClient) (coordinator : unique_ptr XlaCoordinator) :
  sys_util.GetEnvBool C environ (kEnvPjrtDynamicPlugins K) false = false ->
  let xpu := InitializePjRt K C W plugins environ "XPU" in
  let neuron := InitializePjRt K C W plugins environ "NEURON" in
  existsb is_plugin_setup (trace xpu) = false /\
  existsb is_plugin_setup (trace neuron) = false /\
  (outcome xpu = Returned (client, coordinator) <->
   (exists c_api,
      LoadPjrtPlugin W "xpu"
        (sys_util.GetEnvString environ (kEnvXpuLibraryPath K) "libxpu.so")
        = IsOk c_api) /\
   GetCApiClient W "XPU" ∅ nullptr = IsOk (Some client) /\
   coordinator = nullptr) /\
  (outcome neuron = Returned (client, coordinator) <->
   (exists c_api,
      LoadPjrtPlugin W "NEURON"
        (sys_util.GetEnvString environ (kEnvNeuronLibraryPath K)
           "libneuronpjrt.so") = IsOk c_api) /\
   GetCApiClient W "NEURON" ∅ nullptr = IsOk (Some client) /\
   coordinator = nullptr).
Proof.
  intros Hflag xpu neuron. subst xpu neuron.
  rewrite !InitializePjRt_static by done.
  cbn [String.eqb Ascii.eqb Bool.eqb].
  split_and!.
  - run_paths; reflexivity.
  - run_paths; reflexivity.
  - run_paths.
    all: split;
           [ try discriminate; intros [= <- <-]; split_and!; eauto
           | intros ([c_api Hload] & Hclient & ->); congruence ].
  - run_paths.
    all: split;
           [ try discriminate; intros [= <- <-]; split_and!; eauto
           | intros ([c_api Hload] & Hclient & ->); congruence ].
Qed.

Lemma InitializePjRt_XPU_NEURON_witness :
  outcome (InitializePjRt Std.names Std.conversions Std.externals
             pjrt_plugins_ ∅ "XPU") = Returned (4%N, nullptr) /\
  outcome (InitializePjRt Std.names Std.conversions Std.externals
             pjrt_plugins_ ∅ "NEURON") = Returned (4%N, nullptr).
Proof.
  destruct (InitializePjRt_XPU_NEURON
              Std.names Std.conversions Std.externals pjrt_plugins_ ∅
              4%N nullptr) as (_ & _ & Hxpu & Hneuron).
  - reflexivity.
  - split.
    + apply Hxpu. split_and!; [by exists 3%N | reflexivity | reflexivity].
    + apply Hneuron.
      split_and!; [by exists 3%N | reflexivity | reflexivity].
Defined.

(** X20.  On the plugin path a plugin that asks for a coordinator gets one
    whatever the world size is (the CUDA path creates one only for a world
    size above 1).  A run that returns holds the coordinator that was
    created with the rank and size of the plugin topology, at MASTER_ADDR
    (default "localhost") and XLA_COORDINATOR_PORT (default: the
    coordinator's default port), and its client is the one the factory
    built over that coordinator's store. *)
Theorem InitializePjRt_plugin_coordinated_returns
    (K : env_vars) (C : Conversions) (W : Externals)
    (plugins : Registry) (environ : Env) (device_type : string)
    (plugin : PjRtPlugin)
    (client : PjRtClient) (coordinator : unique_ptr XlaCoordinator) :
  sys_util.GetEnvBool C environ (kEnvPjrtDynamicPlugins K) false = true ->
  device_type <> "CPU" ->
  GetPjRtPlugin plugins device_type = Some plugin ->
  requires_xla_coordinator plugin environ = true ->
  outcome (InitializePjRt K C W plugins environ device_type) =
    Returned (client, coordinator) ->
  let t := plugin_topology K C environ in
  exists c,
    coordinator = Some c /\
    XlaCoordinator_Create W (global_process_rank t) (global_world_size t)
      (sys_util.GetEnvString environ "MASTER_ADDR" "localhost")
      (sys_util.GetEnvString environ "XLA_COORDINATOR_PORT"
         (kDefaultCoordinatorPort K)) = IsOk c /\
    GetCApiClient W (AsciiStrToUpper device_type)
      (client_create_options plugin environ)
      (Some (GetDistributedKeyValueStore
               (XlaCoordinator_GetClient W c) "pjrt:")) =
      IsOk (Some client).
Proof.
  intros Hflag Hcpu Hplugin Hreq Hret t.
  rewrite InitializePjRt_dynamic in Hret by done.
  unfold GetPjRtPlugin in Hplugin.
  destruct (plugins !! device_type) as [plugin' |]; [| discriminate].
  injection Hplugin as ->.
  unfold plugin_client in Hret. rewrite Hreq in Hret.
  generalize dependent coordinator. run_paths.
  all: intros coordinator Hret; try discriminate Hret.
  injection Hret as <- <-. eexists. split_and!; eauto.
Qed.

Lemma InitializePjRt_plugin_coordinated_returns_witness :
  exists c,
    Some 1%N = Some c /\
    XlaCoordinator_Create Std.externals 0 1 "localhost" "8547" = IsOk c /\
    GetCApiClient Std.externals "FOO" ∅
      (Some (GetDistributedKeyValueStore
               (XlaCoordinator_GetClient Std.externals c) "pjrt:")) =
      IsOk (Some 4%N).
Proof.
  apply (InitializePjRt_plugin_coordinated_returns
           Std.names Std.conversions Std.externals
           (RegisterPjRtPlugin "FOO" Std.coordinated_plugin pjrt_plugins_)
           {[ "PJRT_DYNAMIC_PLUGINS" := "1" ]} "FOO" Std.coordinated_plugin
           4%N (Some 1%N)).
  - vm_compute. reflexivity.
  - discriminate.
  - vm_compute. reflexivity.
  - reflexivity.
  - vm_compute. reflexivity.
Defined.
